(** * MARCUS: the heuristic paper-content extractor of [dockling_wrapper.py]

    A shallow embedding of [backend/app/modules/dockling_wrapper.py]:
    the two block classifiers, the section extractor, the enhanced and
    full-page fallbacks, the text normalizer and the fallback cascade
    of the endpoint, followed by the properties of the specification.

    Python values are dynamically typed, so documents are modelled as
    JSON-like values ([pyval]) and every function that can raise lives
    in an error monad ([result]).  Strings are sequences of Unicode
    code points.  The character tables ([py_isalnum], [lower_char],
    [upper_char], ...) are exact on U+0000-U+00FF and on the characters
    the source file spells out; the whitespace table is complete; any
    other code point is treated as an uncased symbol.  JSON numbers are
    modelled as integers. *)

From Stdlib Require Import List NArith ZArith Bool String Ascii Lia Arith.
Import ListNotations.

Set Implicit Arguments.

(* ================================================================== *)
(** * Python strings *)
(* ================================================================== *)

Definition char := N.
Definition str := list char.

Open Scope N_scope.

(** Decoding of a UTF-8 byte sequence: string literals of the source
    are written as they are and decoded to code points. *)
Fixpoint utf8 (bs : list N) : str :=
  match bs with
  | [] => []
  | b :: t =>
    if b <? 128 then b :: utf8 t
    else if b <? 224 then
      match t with
      | b2 :: t2 => ((b - 192) * 64 + (b2 - 128)) :: utf8 t2
      | _ => []
      end
    else if b <? 240 then
      match t with
      | b2 :: b3 :: t3 =>
          ((b - 224) * 4096 + (b2 - 128) * 64 + (b3 - 128)) :: utf8 t3
      | _ => []
      end
    else
      match t with
      | b2 :: b3 :: b4 :: t4 =>
          ((b - 240) * 262144 + (b2 - 128) * 4096 + (b3 - 128) * 64
           + (b4 - 128)) :: utf8 t4
      | _ => []
      end
  end.

Definition u (s : string) : str :=
  utf8 (map N_of_ascii (list_ascii_of_string s)).

Definition in_range (a b c : N) : bool := (a <=? c) && (c <=? b).

Fixpoint mem (c : char) (l : list char) : bool :=
  match l with
  | [] => false
  | x :: t => (c =? x) || mem c t
  end.

(** [str.isspace] on one character, which is also the regex class \s. *)
Definition py_isspace (c : char) : bool :=
  in_range 9 13 c || in_range 28 32 c || (c =? 133) || (c =? 160)
  || (c =? 5760) || in_range 8192 8202 c || (c =? 8232) || (c =? 8233)
  || (c =? 8239) || (c =? 8287) || (c =? 12288).

Definition ascii_upper (c : char) : bool := in_range 65 90 c.
Definition ascii_lower (c : char) : bool := in_range 97 122 c.
Definition ascii_digit (c : char) : bool := in_range 48 57 c.

(** The superscript modifier letters that the source spells out. *)
Definition modifier_letters : str :=
  u "ᵃᵇᶜᵈᵉᶠᵍʰⁱʲᵏˡᵐⁿᵒᵖʳˢᵗᵘᵛʷˣʸᶻ".

(** [c.isupper()] and [c.islower()] on one cased character. *)
Definition py_isupper_char (c : char) : bool :=
  ascii_upper c || (in_range 192 222 c && negb (c =? 215))
  || (c =? 338) || (c =? 376).

Definition py_islower_char (c : char) : bool :=
  ascii_lower c || (c =? 170) || (c =? 181) || (c =? 186)
  || (in_range 223 255 c && negb (c =? 247)) || (c =? 339)
  || mem c modifier_letters.

(** [c.isdigit()]: decimal digits and the superscript and subscript
    digits. *)
Definition py_isdigit (c : char) : bool :=
  ascii_digit c || (c =? 178) || (c =? 179) || (c =? 185)
  || (c =? 8304) || in_range 8308 8313 c || in_range 8320 8329 c.

(** The regex class \d: decimal digits only. *)
Definition py_isdecimal (c : char) : bool := ascii_digit c.

(** [c.isalnum()]; with the underscore it is the regex class \w. *)
Definition py_isalnum (c : char) : bool :=
  py_isupper_char c || py_islower_char c || py_isdigit c
  || in_range 188 190 c.

Definition py_isword (c : char) : bool := py_isalnum c || (c =? 95).

Definition lower_char (c : char) : char :=
  if ascii_upper c then c + 32
  else if in_range 192 222 c && negb (c =? 215) then c + 32
  else if c =? 338 then 339
  else if c =? 376 then 255
  else c.

(** Upper-casing can lengthen a string: the sharp s becomes "SS". *)
Definition upper_char (c : char) : list char :=
  if ascii_lower c then [c - 32]
  else if c =? 223 then [83; 83]
  else if in_range 224 254 c && negb (c =? 247) then [c - 32]
  else if c =? 255 then [376]
  else if c =? 181 then [924]
  else if c =? 339 then [338]
  else [c].

Definition py_lower (s : str) : str := map lower_char s.
Definition py_upper (s : str) : str := flat_map upper_char s.

Fixpoint lstrip (s : str) : str :=
  match s with
  | [] => []
  | c :: t => if py_isspace c then lstrip t else s
  end.

Definition rstrip (s : str) : str := rev (lstrip (rev s)).

(** [s.strip()] *)
Definition py_strip (s : str) : str := rstrip (lstrip s).

Fixpoint str_eqb (a b : str) : bool :=
  match a, b with
  | [], [] => true
  | x :: a', y :: b' => (x =? y) && str_eqb a' b'
  | _, _ => false
  end.

Fixpoint prefix (p s : str) : bool :=
  match p, s with
  | [], _ => true
  | x :: p', y :: s' => (x =? y) && prefix p' s'
  | _ :: _, [] => false
  end.

(** [p in s] for two strings. *)
Fixpoint py_in (p s : str) : bool :=
  prefix p s ||
  match s with
  | [] => false
  | _ :: t => py_in p t
  end.

(** [any(k in s for k in keys)] *)
Definition any_in (keys : list str) (s : str) : bool :=
  existsb (fun k => py_in k s) keys.

(** [s.split()]: the maximal runs of non-whitespace characters. *)
Fixpoint split_ws_aux (cur : str) (s : str) : list str :=
  match s with
  | [] => match cur with [] => [] | _ => [rev cur] end
  | c :: t =>
    if py_isspace c then
      match cur with
      | [] => split_ws_aux [] t
      | _ => rev cur :: split_ws_aux [] t
      end
    else split_ws_aux (c :: cur) t
  end.

Definition py_split (s : str) : list str := split_ws_aux [] s.

(** [s.split(sep)] for a non-empty separator; [skip] counts the
    characters of a separator still to be passed over. *)
Fixpoint split_sep_aux (sep : str) (skip : nat) (cur : str) (s : str)
  : list str :=
  match s with
  | [] => [rev cur]
  | c :: t =>
    match skip with
    | S n => split_sep_aux sep n cur t
    | O =>
      if prefix sep s
      then rev cur :: split_sep_aux sep (List.length sep - 1) [] t
      else split_sep_aux sep 0 (c :: cur) t
    end
  end.

Definition py_split_sep (sep s : str) : list str := split_sep_aux sep 0 [] s.

(** [s.replace(old, new)] for a non-empty [old]. *)
Fixpoint replace_aux (old new : str) (skip : nat) (s : str) : str :=
  match s with
  | [] => []
  | c :: t =>
    match skip with
    | S n => replace_aux old new n t
    | O =>
      if prefix old s
      then new ++ replace_aux old new (List.length old - 1) t
      else c :: replace_aux old new 0 t
    end
  end.

Definition py_replace (old new s : str) : str := replace_aux old new 0 s.

(** [sep.join(parts)] *)
Fixpoint py_join (sep : str) (parts : list str) : str :=
  match parts with
  | [] => []
  | [p] => p
  | p :: rest => p ++ sep ++ py_join sep rest
  end.

(** [len(s)] *)
Definition len (s : str) : nat := List.length s.

(** [s.isdigit()] *)
Definition py_isdigit_str (s : str) : bool :=
  match s with
  | [] => false
  | _ => forallb py_isdigit s
  end.

(** [s.isupper()] and [s.islower()]: at least one cased character and
    no cased character of the other case. *)
Definition py_isupper (s : str) : bool :=
  existsb py_isupper_char s && negb (existsb py_islower_char s).

Definition py_islower (s : str) : bool :=
  existsb py_islower_char s && negb (existsb py_isupper_char s).

(** Word count, [len(s.split())]. *)
Definition word_count (s : str) : nat := List.length (py_split s).

(* ================================================================== *)
(** * Regular expressions ([re.search] and [re.sub]) *)
(* ================================================================== *)

(** The fragment of Python's regular expressions the source uses.
    [Chr p] is one character of a class (a literal, a set, \s, \w, \d,
    the dot); [Star] is the greedy star; [Group n] is the n-th
    capturing group; [Bol] and [Eol] are ^ and $ (without the
    MULTILINE flag) and [WordB] is \b. *)
Inductive regex : Type :=
| Eps
| Chr (p : char -> bool)
| Seq (r1 r2 : regex)
| Alt (r1 r2 : regex)
| Star (r : regex)
| Bol
| Eol
| WordB
| Group (n : nat) (r : regex).

Definition captures := list (nat * str).

Fixpoint capture (n : nat) (cs : captures) : str :=
  match cs with
  | [] => []
  | (m, s) :: t => if Nat.eqb n m then s else capture n t
  end.

(** \b holds between a word character and a non-word character (or an
    end of the string). *)
Definition at_word_boundary (prev : option char) (s : str) : bool :=
  xorb (match prev with Some c => py_isword c | None => false end)
       (match s with c :: _ => py_isword c | [] => false end).

(** A backtracking matcher in continuation-passing style.  [prev] is
    the character before the current position ([None] at the start of
    the string) and [s] the rest of the input; the continuation [k]
    receives the state after the match.  Alternatives are tried in
    Python's order (left alternative first, longest repetition first),
    so the first success is the match Python reports.  Each iteration
    of a star must consume input, and [fuel] bounds the iterations. *)
Fixpoint rmatch (A : Type) (fuel : nat) : regex -> captures -> option char ->
    str -> (captures -> option char -> str -> option A) -> option A :=
  fix go (r : regex) (cs : captures) (prev : option char) (s : str)
         (k : captures -> option char -> str -> option A) : option A :=
    match r with
    | Eps => k cs prev s
    | Chr p =>
      match s with
      | c :: t => if p c then k cs (Some c) t else None
      | [] => None
      end
    | Seq r1 r2 => go r1 cs prev s (fun cs' p' s' => go r2 cs' p' s' k)
    | Alt r1 r2 =>
      match go r1 cs prev s k with
      | Some a => Some a
      | None => go r2 cs prev s k
      end
    | Star r1 =>
      match fuel with
      | O => k cs prev s
      | S f =>
        match go r1 cs prev s
                (fun cs' p' s' =>
                   if (List.length s' <? List.length s)%nat
                   then rmatch f (Star r1) cs' p' s' k
                   else None) with
        | Some a => Some a
        | None => k cs prev s
        end
      end
    | Bol => match prev with None => k cs prev s | Some _ => None end
    | Eol =>
      match s with
      | [] => k cs prev s
      | [c] => if c =? 10 then k cs prev s else None
      | _ => None
      end
    | WordB => if at_word_boundary prev s then k cs prev s else None
    | Group n r1 =>
      go r1 cs prev s
         (fun cs' p' s' =>
            k ((n, firstn (List.length s - List.length s') s) :: cs') p' s')
    end.

(** The match of [r] starting exactly at the current position: the
    captured groups, the last character matched and the rest. *)
Definition match_here (r : regex) (prev : option char) (s : str)
  : option (captures * option char * str) :=
  rmatch (List.length s) r [] prev s (fun cs p' s' => Some (cs, p', s')).

(** [re.search(r, s)] as a truth value: is there a match at some
    position. *)
Fixpoint search_from (r : regex) (prev : option char) (s : str) : bool :=
  match match_here r prev s with
  | Some _ => true
  | None =>
    match s with
    | [] => false
    | c :: t => search_from r (Some c) t
    end
  end.

Definition re_search (r : regex) (s : str) : bool := search_from r None s.

(** A replacement template: literal characters and group references. *)
Inductive tmpl_item : Type :=
| TChr (c : char)
| TRef (n : nat).

Definition expand (t : list tmpl_item) (cs : captures) : str :=
  flat_map (fun i => match i with TChr c => [c] | TRef n => capture n cs end) t.

(** [re.sub(r, t, s)]: the non-overlapping matches are replaced from
    left to right; after an empty match the scan moves on by one
    character. *)
Fixpoint sub_from (fuel : nat) (r : regex) (t : list tmpl_item)
    (prev : option char) (s : str) : str :=
  match fuel with
  | O => s
  | S f =>
    let step :=
      match s with
      | [] => []
      | c :: s1 => c :: sub_from f r t (Some c) s1
      end in
    match match_here r prev s with
    | Some (cs, p', s') =>
      if (List.length s' <? List.length s)%nat
      then expand t cs ++ sub_from f r t p' s'
      else expand t cs ++ step
    | None => step
    end
  end.

Definition re_sub (r : regex) (t : list tmpl_item) (s : str) : str :=
  sub_from (S (List.length s)) r t None s.

(** Building blocks for writing the patterns of the source. *)
Definition is_chr (c : char) : char -> bool := fun x => x =? c.
Definition one_of (s : str) : char -> bool := fun x => mem x s.
Definition range (a b : string) : char -> bool :=
  match u a, u b with
  | [x], [y] => in_range x y
  | _, _ => fun _ => false
  end.
Definition cor (p q : char -> bool) : char -> bool := fun x => p x || q x.
Definition cnot (p : char -> bool) : char -> bool := fun x => negb (p x).
(** The dot matches everything but a newline. *)
Definition dot : char -> bool := fun x => negb (x =? 10).

Fixpoint lit_str (s : str) : regex :=
  match s with
  | [] => Eps
  | [c] => Chr (is_chr c)
  | c :: t => Seq (Chr (is_chr c)) (lit_str t)
  end.
Definition lit (s : string) : regex := lit_str (u s).

Fixpoint cat (rs : list regex) : regex :=
  match rs with
  | [] => Eps
  | [r] => r
  | r :: t => Seq r (cat t)
  end.

Definition plus (r : regex) : regex := Seq r (Star r).
Definition opt (r : regex) : regex := Alt r Eps.
Fixpoint alts (rs : list regex) : regex :=
  match rs with
  | [] => Eps
  | [r] => r
  | r :: t => Alt r (alts t)
  end.
(** r{n} and r{n,} and r{n,m} *)
Fixpoint times (n : nat) (r : regex) : regex :=
  match n with
  | O => Eps
  | S n' => Seq r (times n' r)
  end.
Fixpoint upto (n : nat) (r : regex) : regex :=
  match n with
  | O => Eps
  | S n' => opt (Seq r (upto n' r))
  end.
Definition at_least (n : nat) (r : regex) : regex := Seq (times n r) (Star r).
Definition between (n m : nat) (r : regex) : regex :=
  Seq (times n r) (upto (m - n) r).

Definition cls_s : regex := Chr py_isspace.
Definition cls_w : regex := Chr py_isword.
Definition cls_d : regex := Chr py_isdecimal.
Definition AZ : regex := Chr (range "A" "Z").
Definition az : regex := Chr (range "a" "z").
(** [A-Z][a-z]+ *)
Definition Cap : regex := Seq AZ (plus az).
Definition sp : regex := Chr (is_chr 32).

(* ================================================================== *)
(** * Block noise classifiers *)
(* ================================================================== *)

(** r"^[A-Z][a-z]+ [A-Z][a-z]+(?:,\s*[A-Z][a-z]+ [A-Z][a-z]+)+" *)
Definition author_pattern_1 : regex :=
  cat [Bol; Cap; sp; Cap;
       plus (cat [lit ","; Star cls_s; Cap; sp; Cap])].

(** r"[A-Z][a-z]+ [A-Z][a-z]+[¹²³⁴⁵⁶⁷⁸⁹⁰ᵃᵇᶜᵈᵉᶠᵍʰⁱʲᵏˡᵐⁿᵒᵖʳˢᵗᵘᵛʷˣʸᶻ\*†‡§¶]+" *)
Definition author_pattern_2 : regex :=
  cat [Cap; sp; Cap;
       plus (Chr (one_of
         (u "¹²³⁴⁵⁶⁷⁸⁹⁰ᵃᵇᶜᵈᵉᶠᵍʰⁱʲᵏˡᵐⁿᵒᵖʳˢᵗᵘᵛʷˣʸᶻ*†‡§¶")))].

(** r"^\d+\s*[A-Z][a-z]+ [A-Z][a-z]+" *)
Definition author_pattern_3 : regex :=
  cat [Bol; plus cls_d; Star cls_s; Cap; sp; Cap].

(** r"[A-Z][a-z]+\s+[A-Z][a-z]+,?\s*(PhD|Ph\.D\.|MD|Dr\.|Prof\.|Professor)" *)
Definition author_pattern_4 : regex :=
  cat [Cap; plus cls_s; Cap; opt (lit ","); Star cls_s;
       Group 1 (alts [lit "PhD"; lit "Ph.D."; lit "MD"; lit "Dr.";
                      lit "Prof."; lit "Professor"])].

Definition author_patterns : list regex :=
  [author_pattern_1; author_pattern_2; author_pattern_3; author_pattern_4].

Definition problematic_patterns : list str :=
  map u
    [ (* Author-specific *)
      "corresponding author"; "equal contribution"; "present address";
      "current address"; "orcid:"; "email:"; "e-mail:"; "tel:"; "fax:";
      "phone:";
      (* Institution patterns *)
      "dipartimento"; "universita"; "università"; "university";
      "institute"; "institut"; "department"; "college"; "school of";
      "faculty of"; "laboratory"; "lab "; "center for"; "centre for";
      "hospital"; "medical center"; "research center";
      (* Geographic/Address patterns *)
      "via "; "avenue"; "street"; "road"; "blvd"; "boulevard"; "italy";
      "genova"; "salerno"; "bamako"; "mali";
      (* Journal/Publication patterns *)
      "received"; "accepted"; "published"; "correspondence:"; "funding:";
      "doi:"; "copyright"; "journal of"; "volume"; "issue"; "page";
      (* Table/Figure patterns *)
      "table "; "figure "; "fig "; "chart "; "scheme "; "plate ";
      "anti-inflammatory activity"; "carrageenan-induced";
      (* Chemical compound patterns *)
      "compounds 1"; "compounds "; "compound "; "structures of";
      "chemical"; "synthesis"; "analysis"; "characterization";
      (* Author symbols and markers *)
      "†"; "‡"; "§"; "¶"; "*"; "**"; "***";
      (* Common institutional suffixes *)
      ".it"; ".edu"; ".org"; ".ac."; ".univ" ]%string.

(** r"[^\w]" *)
Definition non_word : regex := Chr (cnot py_isword).

(** The test on one word of [content.split()]:
    [clean_word = re.sub(r"[^\w]", "", word)] looks like a proper name. *)
Definition is_name_word (word : str) : bool :=
  let clean_word := re_sub non_word [] word in
  (1 <? len clean_word)%nat
  && match clean_word with
     | c :: rest => py_isupper [c] && py_islower rest
     | [] => false
     end
  && (2 <? len clean_word)%nat.

(** r"[†‡§¶\*]{1,3}" *)
Definition marker_pattern : regex :=
  between 1 3 (Chr (one_of (u "†‡§¶*"))).

(** r"\b[A-Za-z0-9._%+-]+@[A-Za-z0-9.-]+\.[A-Z|a-z]{2,}\b" *)
Definition email_pattern : regex :=
  cat [WordB;
       plus (Chr (cor (range "A" "Z") (cor (range "a" "z")
                 (cor (range "0" "9") (one_of (u "._%+-"))))));
       lit "@";
       plus (Chr (cor (range "A" "Z") (cor (range "a" "z")
                 (cor (range "0" "9") (one_of (u ".-"))))));
       lit ".";
       at_least 2 (Chr (cor (range "A" "Z") (cor (is_chr 124) (range "a" "z"))));
       WordB].

(** r"\b\d{4,5}\s+[A-Z][a-z]+" *)
Definition postal_pattern : regex :=
  cat [WordB; between 4 5 cls_d; plus cls_s; Cap].

(** [sum(1 for c in content if c in "†‡§¶*,()[]{}0123456789")] *)
Definition symbol_count (content : str) : nat :=
  List.length (filter (one_of (u "†‡§¶*,()[]{}0123456789")) content).

(** [_is_author_line(content)].  The test [symbol_count > len(content) * 0.3]
    is written over the integers; the two agree because the double
    nearest to 0.3 times a multiple of 10 rounds to the exact product. *)
Definition _is_author_line (content : str) : bool :=
  let content_lower := py_lower content in
  let content_stripped := py_strip content in
  (* Skip empty or very short content *)
  if (len content_stripped <? 3)%nat then false
  (* Check for author-like patterns *)
  else if existsb (fun pattern => re_search pattern content) author_patterns
  then true
  else
    (* Check for multiple proper names *)
    let words := py_split content in
    if ((2 <=? List.length words)%nat && (len content <? 300)%nat)
       && ((3 <=? List.length (filter is_name_word words))%nat
           && (len content <? 200)%nat)
    then true
    (* Check for problematic content *)
    else if any_in problematic_patterns content_lower then true
    (* Mostly symbols or numbers *)
    else if (3 * len content <? 10 * symbol_count content)%nat then true
    else if re_search marker_pattern content then true
    else if re_search email_pattern content then true
    else if re_search postal_pattern content then true
    else false.

Definition digits1 : regex := plus cls_d.
Definition dashes : regex := Chr (one_of (u "-–—")).

Definition table_fig_patterns : list regex :=
  [ (* r"^table\s+\d+" *)
    cat [Bol; lit "table"; plus cls_s; digits1];
    (* r"^figure\s+\d+" *)
    cat [Bol; lit "figure"; plus cls_s; digits1];
    (* r"^fig\s+\d+" *)
    cat [Bol; lit "fig"; plus cls_s; digits1];
    (* r"^chart\s+\d+" *)
    cat [Bol; lit "chart"; plus cls_s; digits1];
    (* r"^scheme\s+\d+" *)
    cat [Bol; lit "scheme"; plus cls_s; digits1];
    (* r"^plate\s+\d+" *)
    cat [Bol; lit "plate"; plus cls_s; digits1];
    (* r"^\d+\s*[a-z]\s+values" *)
    cat [Bol; digits1; Star cls_s; az; plus cls_s; lit "values"];
    (* r"^\d+\s*[a-z]\s+assignments" *)
    cat [Bol; digits1; Star cls_s; az; plus cls_s; lit "assignments"];
    (* r"anti-inflammatory activity.*on.*edema" *)
    cat [lit "anti-inflammatory activity"; Star (Chr dot); lit "on";
         Star (Chr dot); lit "edema"];
    (* r"carrageenan-induced.*edema" *)
    cat [lit "carrageenan-induced"; Star (Chr dot); lit "edema"];
    (* r"mean.*sem.*n\s*[=\(]" *)
    cat [lit "mean"; Star (Chr dot); lit "sem"; Star (Chr dot); lit "n";
         Star cls_s; Chr (one_of (u "=("))];
    (* r"p\s*<\s*0\." *)
    cat [lit "p"; Star cls_s; lit "<"; Star cls_s; lit "0."];
    (* r"student.*test" *)
    cat [lit "student"; Star (Chr dot); lit "test"];
    (* r"\bpo\s*," *)
    cat [WordB; lit "po"; Star cls_s; lit ","];
    (* r"extraction yields?" *)
    cat [lit "extraction yield"; opt (lit "s")];
    (* r"fractionation yield" *)
    lit "fractionation yield" ].

(** r"compounds?\s+\d+\s*[-–—]\s*\d+" *)
Definition compound_range_pattern : regex :=
  cat [lit "compound"; opt (lit "s"); plus cls_s; digits1; Star cls_s;
       dashes; Star cls_s; digits1].

(** r"^\d+\s*[-–—]\s*\d+\s*$" *)
Definition citation_range_pattern : regex :=
  cat [Bol; digits1; Star cls_s; dashes; Star cls_s; digits1; Star cls_s;
       Eol].

Definition journal_patterns : list str :=
  map u
    [ "received"; "accepted"; "published online"; "publication date";
      "doi:"; "issn"; "copyright"; "journal of"; "vol."; "volume";
      "issue"; "pages"; "pp."; "manuscript" ]%string.

(** The part of [_is_unwanted_content] that follows the computation of
    [content_lower]. *)
Definition unwanted_lower (content_lower : str) : bool :=
  if (len content_lower <? 3)%nat then true
  else if existsb (fun pattern => re_search pattern content_lower)
                  table_fig_patterns then true
  (* Chemical compound lists and structure descriptions *)
  else if re_search compound_range_pattern content_lower then true
  (* References and citations *)
  else if re_search citation_range_pattern content_lower then true
  (* Journal metadata *)
  else if any_in journal_patterns content_lower then true
  (* Very short content that's likely metadata *)
  else if (len content_lower <? 10)%nat && existsb py_isdigit content_lower
  then true
  else false.

(** [_is_unwanted_content(content)] *)
Definition _is_unwanted_content (content : str) : bool :=
  let content_lower := py_strip (py_lower content) in
  unwanted_lower content_lower.

(* ================================================================== *)
(** * Python values and exceptions *)
(* ================================================================== *)

Set Warnings "-register-all".

(** The values a converted document (a JSON object) is made of. *)
Inductive pyval : Type :=
| PNone
| PBool (b : bool)
| PInt (z : Z)
| PStr (s : str)
| PList (l : list pyval)
| PDict (d : list (str * pyval)).

Inductive exn : Type :=
| AttributeError
| TypeError
| KeyError
| IndexError.

(** The outcome of a call: a value, or a raised exception. *)
Inductive result (A : Type) : Type :=
| Ok (a : A)
| Raise (e : exn).

Arguments Ok {A} a.
Arguments Raise {A} e.

Definition bind {A B : Type} (r : result A) (f : A -> result B) : result B :=
  match r with
  | Ok a => f a
  | Raise e => Raise e
  end.

Notation "x <- c1 ;; c2" := (bind c1 (fun x => c2))
  (at level 61, c1 at next level, right associativity).

(** [returns c]: the call yields a value and does not raise. *)
Definition returns (A : Type) (c : result A) : Prop := exists a, c = Ok a.

Fixpoint dict_lookup (key : str) (d : list (str * pyval)) : option pyval :=
  match d with
  | [] => None
  | (k, v) :: t => if str_eqb key k then Some v else dict_lookup key t
  end.

(** [v.get(key, default)]: only a dict has the method. *)
Definition py_get (v : pyval) (key : string) (default : pyval) : result pyval :=
  match v with
  | PDict d =>
    Ok (match dict_lookup (u key) d with Some x => x | None => default end)
  | _ => Raise AttributeError
  end.

(** The string methods exist on strings only. *)
Definition as_str (v : pyval) : result str :=
  match v with
  | PStr s => Ok s
  | _ => Raise AttributeError
  end.

(** [v.get("text", "").strip()] *)
Definition text_stripped (text : pyval) : result str :=
  t <- py_get text "text" (PStr []) ;;
  s <- as_str t ;;
  Ok (py_strip s).

(** [len(v)] *)
Definition py_len (v : pyval) : result nat :=
  match v with
  | PStr s => Ok (List.length s)
  | PList l => Ok (List.length l)
  | PDict d => Ok (List.length d)
  | _ => Raise TypeError
  end.

(** Truth value of a value in a condition. *)
Definition py_truthy (v : pyval) : bool :=
  match v with
  | PNone => false
  | PBool b => b
  | PInt z => negb (z =? 0)%Z
  | PStr s => match s with [] => false | _ => true end
  | PList l => match l with [] => false | _ => true end
  | PDict d => match d with [] => false | _ => true end
  end.

(** [v == "literal"] *)
Definition py_eq_str (v : pyval) (s : string) : bool :=
  match v with
  | PStr x => str_eqb x (u s)
  | _ => false
  end.

(** The numeric value of a number ([True] is 1 and [False] is 0). *)
Definition as_number (v : pyval) : option Z :=
  match v with
  | PInt z => Some z
  | PBool b => Some (if b then 1 else 0)%Z
  | _ => None
  end.

(** [v == n] for an integer literal *)
Definition py_eq_int (v : pyval) (n : Z) : bool :=
  match as_number v with
  | Some z => (z =? n)%Z
  | None => false
  end.

(** [v <= n] and [v > n]: ordering a non-number against an integer
    raises TypeError. *)
Definition py_le (v : pyval) (n : Z) : result bool :=
  match as_number v with
  | Some z => Ok (z <=? n)%Z
  | None => Raise TypeError
  end.

Definition py_gt (v : pyval) (n : Z) : result bool :=
  match as_number v with
  | Some z => Ok (n <? z)%Z
  | None => Raise TypeError
  end.

(** [v[0]] *)
Definition py_index0 (v : pyval) : result pyval :=
  match v with
  | PList (x :: _) => Ok x
  | PList [] => Raise IndexError
  | PStr (c :: _) => Ok (PStr [c])
  | PStr [] => Raise IndexError
  | PDict _ => Raise KeyError
  | _ => Raise TypeError
  end.

(** The elements a [for] loop over [v] visits. *)
Definition py_iter (v : pyval) : result (list pyval) :=
  match v with
  | PList l => Ok l
  | PStr s => Ok (map (fun c => PStr [c]) s)
  | PDict d => Ok (map (fun kv => PStr (fst kv)) d)
  | _ => Raise TypeError
  end.

(** [v[:n]] followed by iteration. *)
Definition py_slice_to (n : nat) (v : pyval) : result (list pyval) :=
  match v with
  | PList l => Ok (firstn n l)
  | PStr s => Ok (map (fun c => PStr [c]) (firstn n s))
  | _ => Raise TypeError
  end.

(** [text.get("label")] and its uses. *)
Definition label_of (text : pyval) : result pyval := py_get text "label" PNone.

Definition is_section_header (label : pyval) : bool :=
  py_eq_str label "section_header".

(** [label in ["page_header", "page_footer"]] *)
Definition is_page_furniture (label : pyval) : bool :=
  py_eq_str label "page_header" || py_eq_str label "page_footer".

(** [text.get("prov", [{}])[0].get("page_no", 1) if text.get("prov") else 1] *)
Definition page_no_of (text : pyval) : result pyval :=
  prov <- py_get text "prov" PNone ;;
  if py_truthy prov then
    prov' <- py_get text "prov" (PList [PDict []]) ;;
    first <- py_index0 prov' ;;
    py_get first "page_no" (PInt 1)
  else Ok (PInt 1).

(** Loops: a step either goes on to the next element ([continue], or
    the end of the body) or leaves the loop ([break]). *)
Inductive flow (S : Type) : Type :=
| Next (s : S)
| Break (s : S).

Arguments Next {S} s.
Arguments Break {S} s.

Definition flow_state {S : Type} (f : flow S) : S :=
  match f with Next s => s | Break s => s end.

Fixpoint run_loop {S : Type} (step : S -> pyval -> result (flow S))
    (texts : list pyval) (s : S) : result (flow S) :=
  match texts with
  | [] => Ok (Next s)
  | text :: rest =>
    r <- step s text ;;
    match r with
    | Next s' => run_loop step rest s'
    | Break s' => Ok (Break s')
    end
  end.

Definition for_each {S : Type} (step : S -> pyval -> result (flow S))
    (texts : list pyval) (s : S) : result S :=
  r <- run_loop step texts s ;;
  Ok (flow_state r).

(* ================================================================== *)
(** * Text normalizer *)
(* ================================================================== *)

(** r"\s+" *)
Definition re_spaces : regex := plus cls_s.
(** r"\s+([.,;:?!])" *)
Definition re_space_punct : regex :=
  Seq (plus cls_s) (Group 1 (Chr (one_of (u ".,;:?!")))).
(** r"\s*\|\s*" *)
Definition re_pipe : regex := cat [Star cls_s; lit "|"; Star cls_s].
(** r"\s*~\s*" *)
Definition re_tilde : regex := cat [Star cls_s; lit "~"; Star cls_s].
(** r"([a-z])([A-Z])" *)
Definition re_lower_upper : regex := Seq (Group 1 az) (Group 2 AZ).
(** r"[ŒœŸÿ]" *)
Definition re_ligature : regex := Chr (one_of (u "ŒœŸÿ")).
(** r"(\w)-\s+(\w)" *)
Definition re_hyphen_break : regex :=
  cat [Group 1 cls_w; lit "-"; plus cls_s; Group 2 cls_w].

Definition space : tmpl_item := TChr 32.

(** [s.replace("\n", " ")] *)
Definition replace_newlines (s : str) : str := py_replace [10] [32] s.

(** The clean-up sequence of [combine_to_paragraph]. *)
Definition normalize (combined_paragraph : str) : str :=
  (* Replace newlines with spaces *)
  let p := replace_newlines combined_paragraph in
  (* Replace multiple spaces with single spaces *)
  let p := re_sub re_spaces [space] p in
  (* Fix spacing around punctuation *)
  let p := re_sub re_space_punct [TRef 1] p in
  (* Remove extra spaces around common symbols *)
  let p := re_sub re_pipe [space; TChr 124; space] p in
  let p := re_sub re_tilde [space] p in
  (* Clean up common formatting issues *)
  let p := re_sub re_lower_upper [TRef 1; space; TRef 2] p in
  (* Remove unnecessary symbols that might have been OCR artifacts *)
  let p := re_sub re_ligature [] p in
  (* Fix common word breaks *)
  let p := re_sub re_hyphen_break [TRef 1; TRef 2] p in
  (* Final cleanup - ensure single spaces *)
  py_strip (re_sub re_spaces [space] p).

(** The clean-up sequence at the end of [extract_enhanced_paper_content]
    and of [extract_full_page_text]: the same without the split at a
    lowercase-uppercase boundary. *)
Definition clean_text (combined : str) : str :=
  let p := replace_newlines combined in
  let p := re_sub re_spaces [space] p in
  let p := re_sub re_space_punct [TRef 1] p in
  let p := re_sub re_pipe [space; TChr 124; space] p in
  let p := re_sub re_tilde [space] p in
  let p := re_sub re_ligature [] p in
  let p := re_sub re_hyphen_break [TRef 1; TRef 2] p in
  py_strip (re_sub re_spaces [space] p).

(** [result_dict.get(key, "").strip()] *)
Definition field_stripped (result_dict : pyval) (key : string) : result str :=
  v <- py_get result_dict key (PStr []) ;;
  s <- as_str v ;;
  Ok (py_strip s).

Definition nonempty (s : str) : bool :=
  match s with [] => false | _ => true end.

(** [combine_to_paragraph(result_dict)] *)
Definition combine_to_paragraph (result_dict : pyval) : result str :=
  match result_dict with
  | PDict _ =>
    title <- field_stripped result_dict "title" ;;
    abstract <- field_stripped result_dict "abstract" ;;
    main_text <- field_stripped result_dict "main_text" ;;
    let combined_text :=
      (if nonempty title then [title] else [])
      ++ (if nonempty abstract then [abstract] else [])
      ++ (if nonempty main_text then [main_text] else []) in
    Ok (normalize (py_join [32] combined_text))
  | _ => Ok (u "Error: Input must be a dictionary.")
  end.

(* ================================================================== *)
(** * Section extractor ([extract_paper_content]) *)
(* ================================================================== *)

(** The pipeline's output contract. *)
Record ExtractionResult : Type := mkResult {
  title : str;
  abstract : str;
  main_text : str
}.

(** The dict the extractor returns. *)
Definition to_dict (r : ExtractionResult) : pyval :=
  PDict [(u "title", PStr (title r)); (u "abstract", PStr (abstract r));
         (u "main_text", PStr (main_text r))].

Definition section_keywords : list str :=
  map u ["ABSTRACT"; "INTRODUCTION"; "EXPERIMENTAL"; "METHODS"; "RESULTS"]%string.

Definition metadata_indicators : list str :=
  map u ["correspondence:"; "received:"; "funding:"; "doi:"; "copyright"]%string.

(** One iteration of the title loop; the state is the title found. *)
Definition title_step (_ : str) (text : pyval) : result (flow str) :=
  label <- label_of text ;;
  level <- py_get text "level" PNone ;;
  if is_section_header label && py_eq_int level 1 then
    t <- py_get text "text" (PStr []) ;;
    s <- as_str t ;;
    if negb (py_in (u "RESULTS") (py_upper s)) && (5 <? len s)%nat
    then Ok (Break s)
    else Ok (Next [])
  (* Also look for titles without level information *)
  else if is_section_header label then
    content <- text_stripped text ;;
    if (20 <? len content)%nat
       && negb (any_in section_keywords (py_upper content))
    then Ok (Break content)
    else Ok (Next [])
  else Ok (Next []).

Definition find_title (texts : list pyval) : result str :=
  for_each title_step texts [].

(** State of the abstract loop. *)
Record abstract_state : Type := mkAbs {
  collecting_abstract : bool;
  abstract_section : list str
}.

Definition abstract_stop_keywords : list str :=
  map u ["INTRODUCTION"; "EXPERIMENTAL"; "METHODS"; "RESULTS"]%string.

Definition abstract_step (st : abstract_state) (text : pyval)
  : result (flow abstract_state) :=
  content <- text_stripped text ;;
  if negb (nonempty content) then Ok (Next st)
  else
    label <- label_of text ;;
    (* Check for standalone ABSTRACT header *)
    if is_section_header label && str_eqb (py_upper content) (u "ABSTRACT")
    then Ok (Next (mkAbs true (abstract_section st)))
    (* Check for inline ABSTRACT: format *)
    else if py_in (u "ABSTRACT:") (py_upper content) then
      Ok (Next (mkAbs true
        (abstract_section st ++
         [py_strip (py_replace (u "Abstract:") []
                     (py_replace (u "ABSTRACT:") [] content))])))
    (* If we're collecting abstract content *)
    else if collecting_abstract st then
      (* Stop at next section header *)
      if is_section_header label
         && any_in abstract_stop_keywords (py_upper content)
      then Ok (Break st)
      (* Skip page headers/footers but be more inclusive *)
      else if negb (is_page_furniture label)
              && negb (any_in metadata_indicators (py_lower content))
      then Ok (Next (mkAbs true (abstract_section st ++ [content])))
      else Ok (Next st)
    else Ok (Next st).

(** State of the main-text loop. *)
Record main_state : Type := mkMain {
  found_intro : bool;
  main_text_list : list str
}.

Definition main_start_keywords : list str :=
  map u ["METHODOLOGY"; "MATERIALS"; "EXPERIMENTAL"]%string.

Definition stop_keywords : list str :=
  map u ["RESULTS"; "REFERENCES"; "BIBLIOGRAPHY"; "ACKNOWLEDGMENT"]%string.

(** ["INTRODUCTION" in content.upper()
     or ("|" in content and "INTRODUCTION" in content.upper())] *)
Definition names_introduction (content : str) : bool :=
  py_in (u "INTRODUCTION") (py_upper content)
  || (py_in (u "|") content && py_in (u "INTRODUCTION") (py_upper content)).

Definition main_step (st : main_state) (text : pyval)
  : result (flow main_state) :=
  content <- text_stripped text ;;
  page_no <- page_no_of text ;;
  label <- label_of text ;;
  (* Skip empty content and page headers/footers *)
  if negb (nonempty content) || is_page_furniture label then Ok (Next st)
  (* Look for introduction section header *)
  else if is_section_header label && names_introduction content then
    Ok (Next (mkMain true (main_text_list st ++ [content])))
  (* Also look for methodology/materials sections as valid content *)
  else if is_section_header label
          && any_in main_start_keywords (py_upper content) then
    Ok (Next (mkMain true (main_text_list st ++ [content])))
  (* Stop at results or references section *)
  else if (found_intro st && is_section_header label)
          && any_in stop_keywords (py_upper content) then
    Ok (Break st)
  (* Collect main text after introduction *)
  else if found_intro st then
    on_page <- py_le page_no 6 ;;
    if on_page && negb (any_in metadata_indicators (py_lower content))
    then Ok (Next (mkMain (found_intro st) (main_text_list st ++ [content])))
    else Ok (Next st)
  else Ok (Next st).

(** The lenient pass over the early pages. *)
Definition lenient_step (main_text : list str) (text : pyval)
  : result (flow (list str)) :=
  content <- text_stripped text ;;
  page_no <- page_no_of text ;;
  label <- label_of text ;;
  (* Skip page headers/footers and very short content *)
  if negb (nonempty content) || is_page_furniture label
     || (len content <? 5)%nat
  then Ok (Next main_text)
  else
    (* Only process first 3 pages for fallback *)
    late <- py_gt page_no 3 ;;
    if late then Ok (Next main_text)
    (* Only skip obvious metadata *)
    else if any_in metadata_indicators (py_lower content)
    then Ok (Next main_text)
    else Ok (Next (main_text ++ [content])).

(** The body of [extract_paper_content] once the blocks are known. *)
Definition extract_sections (texts : list pyval) : result ExtractionResult :=
  title <- find_title texts ;;
  abs <- for_each abstract_step texts (mkAbs false []) ;;
  let abstract := py_join [32] (abstract_section abs) in
  main <- for_each main_step texts (mkMain false []) ;;
  let main_text := main_text_list main in
  (* Enhanced fallback: if we didn't get much content *)
  main_text <-
    (if negb (nonempty abstract)
        && match main_text with [] => true | _ => false end
     then for_each lenient_step texts main_text
     else Ok main_text) ;;
  Ok (mkResult title abstract (py_join [32] main_text)).

(** [doc_json.get("texts", [])] followed by the iteration over it. *)
Definition blocks_of (doc_json : pyval) : result (list pyval) :=
  texts <- py_get doc_json "texts" (PList []) ;;
  py_iter texts.

(** [extract_paper_content(doc_json)] *)
Definition extract_paper_content (doc_json : pyval) : result pyval :=
  texts <- blocks_of doc_json ;;
  r <- extract_sections texts ;;
  Ok (to_dict r).

(* ================================================================== *)
(** * Document gate and backfill ([extract_from_docling_document]) *)
(* ================================================================== *)

(** ["schema_name" in data] *)
Definition py_contains (data : pyval) (key : string) : result bool :=
  match data with
  | PDict d =>
    Ok (match dict_lookup (u key) d with Some _ => true | None => false end)
  | PStr s => Ok (py_in (u key) s)
  | PList l => Ok (existsb (fun v => py_eq_str v key) l)
  | _ => Raise TypeError
  end.

(** [data["schema_name"]] *)
Definition py_item (data : pyval) (key : string) : result pyval :=
  match data with
  | PDict d =>
    match dict_lookup (u key) d with
    | Some v => Ok v
    | None => Raise KeyError
    end
  | _ => Raise TypeError
  end.

Definition backfill_title_keywords : list str :=
  map u ["ABSTRACT"; "INTRODUCTION"; "RESULTS"; "METHODS"; "EXPERIMENTAL"]%string.

(** The second search for a title; the state is the title found. *)
Definition backfill_title_step (found : str) (text : pyval)
  : result (flow str) :=
  content <- text_stripped text ;;
  label <- label_of text ;;
  (* Look for section headers that could be titles *)
  if is_section_header label && (30 <? len content)%nat
     && negb (any_in backfill_title_keywords (py_upper content))
  then Ok (Break content)
  (* Look for large font text at the beginning *)
  else if py_eq_str label "paragraph" then
    page_number <- py_get text "page_number" PNone ;;
    if py_eq_int page_number 1 then
      font_size <- py_get text "font_size" (PInt 0) ;;
      large <- py_gt font_size 12 ;;
      if large then Ok (Break content) else Ok (Next found)
    else Ok (Next found)
  else Ok (Next found).

Definition structured_abstract_markers : list str :=
  map u ["introduction:"; "objective:"; "methodology:"; "results:";
         "conclusion:"]%string.

Definition backfill_abstract_step (abstract_texts : list str) (text : pyval)
  : result (flow (list str)) :=
  content <- text_stripped text ;;
  let abstract_texts :=
    if any_in structured_abstract_markers (py_lower content)
    then abstract_texts ++ [content] else abstract_texts in
  label <- label_of text ;;
  (* If we find "introduction" header, stop collecting *)
  if is_section_header label && py_in (u "introduction") (py_lower content)
  then Ok (Break abstract_texts)
  else Ok (Next abstract_texts).

Definition backfill (texts : list pyval) (r : ExtractionResult)
  : result ExtractionResult :=
  if negb (nonempty (title r)) || negb (nonempty (abstract r))
     || negb (nonempty (main_text r))
  then
    (* If title is empty, try to find a likely title *)
    r <- (if negb (nonempty (title r)) then
            t <- for_each backfill_title_step texts (title r) ;;
            Ok (mkResult t (abstract r) (main_text r))
          else Ok r) ;;
    (* If abstract is still empty, use a more comprehensive approach *)
    if negb (nonempty (abstract r)) then
      abstract_texts <- for_each backfill_abstract_step texts [] ;;
      match abstract_texts with
      | [] => Ok r
      | _ => Ok (mkResult (title r) (py_join [32] abstract_texts) (main_text r))
      end
    else Ok r
  else Ok r.

Definition invalid_format : pyval :=
  PDict [(u "error", PStr (u "Not a valid Docling document format"))].

(** [extract_from_docling_document(data)] *)
Definition extract_from_docling_document (data : pyval) : result pyval :=
  has_tag <- py_contains data "schema_name" ;;
  tagged <-
    (if has_tag then
       tag <- py_item data "schema_name" ;;
       Ok (py_eq_str tag "DoclingDocument")
     else Ok false) ;;
  if tagged then
    texts <- blocks_of data ;;
    r <- extract_sections texts ;;
    r <- backfill texts r ;;
    Ok (to_dict r)
  else Ok invalid_format.

(* ================================================================== *)
(** * Enhanced extractor ([extract_enhanced_paper_content]) *)
(* ================================================================== *)

Definition enhanced_indicators : list str :=
  map u ["correspondence:"; "received:"; "funding:"; "doi:"; "copyright";
         "@"; "university"; "institute"; "department"; "college";
         "school of"; "faculty of"; "laboratory"; "lab "; "center for";
         "centre for"; "hospital"; "medical center"; "research center";
         "orcid"; "author"; "affiliation"]%string.

(** The filter every capture state applies before accepting a block. *)
Definition accepts (content : str) : bool :=
  negb (any_in enhanced_indicators (py_lower content))
  && negb (_is_author_line content)
  && negb (_is_unwanted_content content).

(** The title loop of the enhanced extractor. *)
Definition enhanced_title_step (_ : str) (text : pyval) : result (flow str) :=
  label <- label_of text ;;
  if is_section_header label then
    content <- text_stripped text ;;
    if (20 <? len content)%nat
       && negb (any_in section_keywords (py_upper content))
    then Ok (Break content)
    else Ok (Next [])
  else Ok (Next []).

(** The capture flags and the collection buffers of the scan. *)
Record capture_state : Type := mkCap {
  capturing_abstract : bool;
  capturing_introduction : bool;
  capturing_main : bool;
  abstract_content : list str;
  introduction_content : list str;
  main_content : list str
}.

Definition initial_capture : capture_state :=
  mkCap false false false [] [] [].

Definition structured_abstract_keywords : list str :=
  map u ["Introduction:"; "Objective:"; "Methodology:"; "Results:";
         "Conclusion:"; "Background:"; "Methods:"; "Purpose:"; "Aim:";
         "Summary:"]%string.

Definition main_section_keywords : list str :=
  map u ["METHODS"; "METHODOLOGY"; "MATERIALS"; "EXPERIMENTAL"; "DISCUSSION";
         "ANALYSIS"]%string.

(** [if flag and page_no <= limit: if accepts(content): buffer.append(content)] *)
Definition capture_into (flag : bool) (page_no : pyval) (limit : Z)
    (content : str) (buffer : list str) : result (list str) :=
  if flag then
    on_page <- py_le page_no limit ;;
    if on_page && accepts content then Ok (buffer ++ [content]) else Ok buffer
  else Ok buffer.

(** One iteration of the scan (the loop has no [break]). *)
Definition capture_step (st : capture_state) (text : pyval)
  : result capture_state :=
  content <- text_stripped text ;;
  page_no <- page_no_of text ;;
  label <- label_of text ;;
  (* Skip empty content and headers/footers *)
  if negb (nonempty content) || is_page_furniture label
     || (len content <? 3)%nat
  then Ok st
  (* Check for abstract section *)
  else if is_section_header label && str_eqb (py_upper content) (u "ABSTRACT")
  then Ok (mkCap true (capturing_introduction st) (capturing_main st)
             (abstract_content st) (introduction_content st) (main_content st))
  (* Check for structured abstract content *)
  else if capturing_abstract st && any_in structured_abstract_keywords content
  then Ok (mkCap (capturing_abstract st) (capturing_introduction st)
             (capturing_main st) (abstract_content st ++ [content])
             (introduction_content st) (main_content st))
  (* Check for main introduction section *)
  else if is_section_header label && names_introduction content
  then Ok (mkCap false true (capturing_main st)
             (abstract_content st) (introduction_content st) (main_content st))
  (* Check for main content sections *)
  else if is_section_header label
          && any_in main_section_keywords (py_upper content)
  then Ok (mkCap (capturing_abstract st) false true
             (abstract_content st) (introduction_content st) (main_content st))
  else
    (* Stop main capture at results or references *)
    let capturing_main' :=
      if (capturing_main st && is_section_header label)
         && any_in stop_keywords (py_upper content)
      then false else capturing_main st in
    abstract' <- capture_into (capturing_abstract st) page_no 3 content
                   (abstract_content st) ;;
    introduction' <- capture_into (capturing_introduction st) page_no 5 content
                       (introduction_content st) ;;
    main' <- capture_into capturing_main' page_no 6 content (main_content st) ;;
    Ok (mkCap (capturing_abstract st) (capturing_introduction st)
          capturing_main' abstract' introduction' main').

Fixpoint capture_scan (texts : list pyval) (st : capture_state)
  : result capture_state :=
  match texts with
  | [] => Ok st
  | text :: rest =>
    st' <- capture_step st text ;;
    capture_scan rest st'
  end.

(** [set(s.lower().split())], as a duplicate-free list. *)
Fixpoint to_set (l : list str) : list str :=
  match l with
  | [] => []
  | x :: t => if existsb (str_eqb x) t then to_set t else x :: to_set t
  end.

Definition word_set (s : str) : list str := to_set (py_split (py_lower s)).

(** [len(a & b)] *)
Definition common (a b : list str) : nat :=
  List.length (filter (fun w => existsb (str_eqb w) b) a).

(** [len(title_words & content_words) / max(len(title_words), 1) < 0.7],
    written over the integers. *)
Definition below_overlap (title content_piece : str) : bool :=
  let title_words := word_set title in
  let content_words := word_set content_piece in
  (10 * common title_words content_words
   <? 7 * Nat.max (List.length title_words) 1)%nat.

(** Remove duplicate title if it appears again in the content. *)
Definition remove_duplicate_title (title : str) (extracted_content : list str)
  : list str :=
  if nonempty title && (1 <? List.length extracted_content)%nat then
    title :: filter (below_overlap title) (tl extracted_content)
  else extracted_content.

Definition rebuild_indicators : list str :=
  map u ["correspondence:"; "received:"; "funding:"; "doi:"; "copyright";
         "journal of"; "volume"; "issue";
         "@"; "university"; "institute"; "department"; "college";
         "school of"; "faculty of"; "laboratory"; "lab "; "center for";
         "centre for"; "hospital"; "medical center"; "research center";
         "orcid"; "author"; "affiliation"]%string.

Definition journal_fragments : list str :=
  map u ["phytochemical analysis"; "john wiley"; "doi.org"; "elsevier";
         "springer"]%string.

(** The rebuild from the early pages, without section awareness. *)
Definition rebuild_step (extracted_content : list str) (text : pyval)
  : result (flow (list str)) :=
  content <- text_stripped text ;;
  page_no <- page_no_of text ;;
  (* Process first 4 pages *)
  late <- py_gt page_no 4 ;;
  label <- label_of text ;;
  if late then Ok (Next extracted_content)
  else if negb (nonempty content) || is_page_furniture label
          || (len content <? 5)%nat
  then Ok (Next extracted_content)
  else if any_in rebuild_indicators (py_lower content)
          || _is_author_line content || _is_unwanted_content content
  then Ok (Next extracted_content)
  (* Skip if it's just page numbers or obvious journal info *)
  else if py_isdigit_str content
          || ((len content <? 50)%nat
              && any_in journal_fragments (py_lower content))
  then Ok (Next extracted_content)
  else Ok (Next (extracted_content ++ [content])).

(** Remove excessive repetition: a sentence longer than 10 characters
    is kept the first time its lower-cased form is seen. *)
Fixpoint unique_sentences (sentences : list str) (seen : list str)
  : list str :=
  match sentences with
  | [] => []
  | sentence :: rest =>
    let sentence_clean := py_lower (py_strip sentence) in
    if (10 <? len sentence_clean)%nat
       && negb (existsb (str_eqb sentence_clean) seen)
    then sentence :: unique_sentences rest (sentence_clean :: seen)
    else unique_sentences rest seen
  end.

(** [extract_enhanced_paper_content(doc_json)] *)
Definition extract_enhanced_paper_content (doc_json : pyval) : result str :=
  texts <- blocks_of doc_json ;;
  title <- for_each enhanced_title_step texts [] ;;
  let extracted_content := if nonempty title then [title] else [] in
  st <- capture_scan texts initial_capture ;;
  (* Combine all content *)
  let extracted_content :=
    extracted_content ++ (if nonempty title then [title] else [])
    ++ abstract_content st ++ introduction_content st
    ++ firstn 8 (main_content st) in
  let extracted_content := remove_duplicate_title title extracted_content in
  (* Enhanced fallback with more comprehensive extraction *)
  extracted_content <-
    (if (List.length extracted_content <? 5)%nat then
       for_each rebuild_step texts (if nonempty title then [title] else [])
     else Ok extracted_content) ;;
  (* Combine and clean the text *)
  let combined := py_join [32] extracted_content in
  let sentences := py_split_sep (u ". ") combined in
  let combined := py_join (u ". ") (unique_sentences sentences []) in
  Ok (clean_text combined).

(* ================================================================== *)
(** * Full-page fallback ([extract_full_page_text]) *)
(* ================================================================== *)

(** The page number as [extract_full_page_text] reads it. *)
Definition early_page_no (text : pyval) : result pyval :=
  prov <- py_get text "prov" PNone ;;
  if py_truthy prov then
    prov' <- py_get text "prov" (PList []) ;;
    n <- py_len prov' ;;
    if (0 <? n)%nat then
      first <- py_index0 prov ;;
      py_get first "page_no" (PInt 1)
    else Ok (PInt 1)
  else Ok (PInt 1).

(** [if content and label not in [...]: if accepts(content): append] *)
Definition keep_block (early_page_texts : list str) (text : pyval)
  : result (list str) :=
  content <- text_stripped text ;;
  label <- label_of text ;;
  if nonempty content && negb (is_page_furniture label) && accepts content
  then Ok (early_page_texts ++ [content])
  else Ok early_page_texts.

Definition early_page_step (early_page_texts : list str) (text : pyval)
  : result (flow (list str)) :=
  page_no <- early_page_no text ;;
  early <- py_le page_no 3 ;;
  if early then
    l <- keep_block early_page_texts text ;;
    Ok (Next l)
  else Ok (Next early_page_texts).

Definition first_blocks_step (early_page_texts : list str) (text : pyval)
  : result (flow (list str)) :=
  l <- keep_block early_page_texts text ;;
  Ok (Next l).

(** [extract_full_page_text(doc_json)] *)
Definition extract_full_page_text (doc_json : pyval) : result str :=
  texts <- py_get doc_json "texts" (PList []) ;;
  blocks <- py_iter texts ;;
  early_page_texts <- for_each early_page_step blocks [] ;;
  (* Enhanced fallback if there's no early page content *)
  early_page_texts <-
    (if match early_page_texts with [] => true | _ => false end
        && py_truthy texts
     then
       first_blocks <- py_slice_to 30 texts ;;
       for_each first_blocks_step first_blocks early_page_texts
     else Ok early_page_texts) ;;
  Ok (clean_text (py_join [32] early_page_texts)).

(* ================================================================== *)
(** * Fallback cascade of the endpoint ([extract_pdf_text]) *)
(* ================================================================== *)

(** Which fallback extractor the endpoint calls. *)
Inductive fallback : Type :=
| FullPageDump
| EnhancedExtraction
| NoFallback.

(** The conditions of the [if] / [elif] on the combined text. *)
Definition choose_fallback (combined_text : str) : fallback :=
  if (word_count combined_text <=? 10)%nat then FullPageDump
  else if (word_count combined_text <? 100)%nat
          || negb (py_in (u "introduction") (py_lower combined_text))
          || py_in (u "phytochemical analysis") (py_lower combined_text)
  then EnhancedExtraction
  else NoFallback.

(** The processing part of [extract_pdf_text], from the converted
    document to the returned text; the upload handling and the
    conversion are outside the core.  The second component records
    the fallback extractor that was called. *)
Definition extract_pdf_text (json_data : pyval) : result (str * fallback) :=
  r <- extract_from_docling_document json_data ;;
  combined_text <- combine_to_paragraph r ;;
  match choose_fallback combined_text with
  | FullPageDump =>
    all_text <- extract_full_page_text json_data ;;
    Ok (if nonempty all_text then all_text else combined_text, FullPageDump)
  | EnhancedExtraction =>
    enhanced_text <- extract_enhanced_paper_content json_data ;;
    Ok (if nonempty enhanced_text
           && (word_count combined_text <? word_count enhanced_text)%nat
        then enhanced_text else combined_text, EnhancedExtraction)
  | NoFallback => Ok (combined_text, NoFallback)
  end.

(** The fallback the endpoint calls for a given extraction result. *)
Definition fallback_for (r : ExtractionResult) : result fallback :=
  combined_text <- combine_to_paragraph (to_dict r) ;;
  Ok (choose_fallback combined_text).

(* ================================================================== *)
(** * Sample blocks and documents *)
(* ================================================================== *)

(** [{"label": "section_header", "level": level, "text": text}] *)
Definition header (level : Z) (text : string) : pyval :=
  PDict [(u "label", PStr (u "section_header")); (u "level", PInt level);
         (u "text", PStr (u text))].

(** [{"label": "paragraph", "text": text}] *)
Definition paragraph (text : string) : pyval :=
  PDict [(u "label", PStr (u "paragraph")); (u "text", PStr (u text))].

(** [{"schema_name": "DoclingDocument", "texts": texts}] *)
Definition docling (texts : list pyval) : pyval :=
  PDict [(u "schema_name", PStr (u "DoclingDocument"));
         (u "texts", PList texts)].

(** Eleven words, the last two being one word broken by a hyphen. *)
Definition broken_word_text : str :=
  u "one two three four five six seven eight nine anti- inflammatory".

(** The overlap test as the specification words it: the share of the
    fragment's own words that occur in the title is at least 70%. *)
Definition shares_70_of_its_words (title content_piece : str) : bool :=
  let content_words := word_set content_piece in
  (7 * List.length content_words
   <=? 10 * common content_words (word_set title))%nat.

Definition name_list : str := u "Maria Rossi, Giulia Bianchi".
Definition via_sentence : str :=
  u "The catalytic mechanism proceeds via nucleophilic attack".
Definition by_sentence : str :=
  u "The catalytic mechanism proceeds by nucleophilic attack".

(** An abstract header directly followed by a methods header. *)
Definition abstract_then_methods : list pyval :=
  [header 2 "Abstract"; header 2 "Methods";
   paragraph "Some paragraph of text"].

Definition flavonoid_title : str := u "Novel flavonoids from plant sources".
Definition flavonoid_fragment : str := u "Novel flavonoids".

Definition eleven_words : str :=
  u "one two three four five six seven eight nine ten eleven".

(** A long level-2 header placed before the level-1 header. *)
Definition level2_before_level1 : list pyval :=
  [header 2 "A sufficiently long second level header";
   header 1 "The Real Title"].

(** A header that names the introduction and carries an inline
    abstract marker, inside the abstract. *)
Definition marked_introduction : list pyval :=
  [header 2 "Abstract"; paragraph "foo";
   header 2 "Introduction abstract: bar"; paragraph "baz"].

Definition plain_introduction : list pyval :=
  [header 2 "Abstract"; paragraph "foo";
   header 2 "1 | Introduction"; paragraph "baz"].

(** A block whose text is [None]. *)
Definition null_text_block : pyval := PDict [(u "text", PNone)].

(** Blocks with missing fields and an unexpected label. *)
Definition sparse_blocks : list pyval :=
  [PDict []; PDict [(u "label", PStr (u "caption"))];
   PDict [(u "text", PStr (u "Plants are green and they grow."))];
   header 1 "Novel Flavonoids from Plant X"].

(** A word broken twice by a hyphen, a tilde before a full stop, a
    ligature at a case boundary, and a sentence without any of the
    three. *)
Definition twice_broken : str := u "a- b- c".
Definition tilde_before_stop : str := u "a ~ .".
Definition ligature_at_boundary : str := u "aœB".
Definition plain_sentence : str :=
  u "the  greenPlants|grow ,
 and rest | .".

(* ================================================================== *)
(** * Well-formed input *)
(* ================================================================== *)

Definition is_number (v : pyval) : bool :=
  match as_number v with Some _ => true | None => false end.

(** A present "text" is a string. *)
Definition wf_text (d : list (str * pyval)) : bool :=
  match dict_lookup (u "text") d with
  | None => true
  | Some (PStr _) => true
  | Some _ => false
  end.

(** A present, non-empty "prov" is a list that starts with a mapping
    whose "page_no", when present, is a number. *)
Definition wf_prov (d : list (str * pyval)) : bool :=
  match dict_lookup (u "prov") d with
  | None => true
  | Some prov =>
    if py_truthy prov then
      match prov with
      | PList (PDict e :: _) =>
        match dict_lookup (u "page_no") e with
        | None => true
        | Some n => is_number n
        end
      | _ => false
      end
    else true
  end.

(** A present "font_size" is a number. *)
Definition wf_font_size (d : list (str * pyval)) : bool :=
  match dict_lookup (u "font_size") d with
  | None => true
  | Some n => is_number n
  end.

Definition well_formed_block (text : pyval) : bool :=
  match text with
  | PDict d => wf_text d && wf_prov d && wf_font_size d
  | _ => false
  end.

(** A mapping whose "texts", when present, is a list of well-formed
    blocks. *)
Definition well_formed_document (doc_json : pyval) : bool :=
  match doc_json with
  | PDict d =>
    match dict_lookup (u "texts") d with
    | None => true
    | Some (PList l) => forallb well_formed_block l
    | Some _ => false
    end
  | _ => false
  end.

Definition wf_str_field (key : string) (d : list (str * pyval)) : bool :=
  match dict_lookup (u key) d with
  | None => true
  | Some (PStr _) => true
  | Some _ => false
  end.

(** Anything that is not a mapping, or a mapping whose "title",
    "abstract" and "main_text", when present, are strings. *)
Definition well_formed_result (result_dict : pyval) : bool :=
  match result_dict with
  | PDict d =>
    wf_str_field "title" d && wf_str_field "abstract" d
    && wf_str_field "main_text" d
  | _ => true
  end.

(** The title a block gives by itself under the two rules of the
    title loop: a level-1 header by the first rule, a header of any
    other level by the second. *)
Definition title_candidate (text : pyval) : option str :=
  match text with
  | PDict d =>
    let label :=
      match dict_lookup (u "label") d with Some l => l | None => PNone end in
    let level :=
      match dict_lookup (u "level") d with Some l => l | None => PNone end in
    let s :=
      match dict_lookup (u "text") d with Some (PStr s) => s | _ => [] end in
    if is_section_header label then
      if py_eq_int level 1 then
        if negb (py_in (u "RESULTS") (py_upper s)) && (5 <? len s)%nat
        then Some s else None
      else
        if (20 <? len (py_strip s))%nat
           && negb (any_in section_keywords (py_upper (py_strip s)))
        then Some (py_strip s) else None
    else None
  | _ => None
  end.

(** The first title any block gives, in document order. *)
Fixpoint first_title (texts : list pyval) : str :=
  match texts with
  | [] => []
  | text :: rest =>
    match title_candidate text with
    | Some t => t
    | None => first_title rest
    end
  end.

(* ================================================================== *)
(** * The normalizer's rewriting steps as direct scans *)
(* ================================================================== *)

(** The greedy star over one character class, [p*] followed by [k]:
    the longest run first, then the shorter ones. *)
Fixpoint star_chr (A : Type) (p : char -> bool) (cs : captures)
    (prev : option char) (s : str)
    (k : captures -> option char -> str -> option A) : option A :=
  match s with
  | c :: t =>
    if p c then
      match star_chr p cs (Some c) t k with
      | Some a => Some a
      | None => k cs prev s
      end
    else k cs prev s
  | [] => k cs prev s
  end.

(** The character before the position where a run of whitespace ends. *)
Fixpoint run_prev (prev : option char) (s : str) : option char :=
  match s with
  | c :: t => if py_isspace c then run_prev (Some c) t else prev
  | [] => prev
  end.

(** Replacing newlines by spaces, one character at a time. *)
Definition newline_to_space (c : char) : char := if c =? 10 then 32 else c.

(** Collapsing every run of whitespace to one space; [in_run] tells
    that the previous character was whitespace. *)
Fixpoint collapse_from (in_run : bool) (s : str) : str :=
  match s with
  | [] => []
  | c :: t =>
    if py_isspace c
    then (if in_run then collapse_from true t else 32 :: collapse_from true t)
    else c :: collapse_from false t
  end.

Definition punct : char -> bool := one_of (u ".,;:?!").

(** Does the text start, after its leading whitespace, with a
    punctuation mark. *)
Definition next_is_punct (s : str) : bool :=
  match lstrip s with
  | x :: _ => punct x
  | [] => false
  end.

(** Dropping the whitespace that stands before a punctuation mark. *)
Fixpoint drop_before_punct (s : str) : str :=
  match s with
  | [] => []
  | c :: t =>
    if py_isspace c && next_is_punct t then drop_before_punct t
    else c :: drop_before_punct t
  end.

(** Inserting a space at every lowercase-uppercase boundary. *)
Fixpoint split_case (s : str) : str :=
  match s with
  | [] => []
  | a :: t =>
    match t with
    | b :: t' =>
      if ascii_lower a && ascii_upper b
      then a :: 32 :: b :: split_case t'
      else a :: split_case t
    | [] => [a]
    end
  end.

(** Does the text start, after its leading whitespace, with a pipe. *)
Definition next_is_pipe (s : str) : bool :=
  match lstrip s with
  | x :: _ => x =? 124
  | [] => false
  end.

(** Putting one space on each side of every pipe; [skip] tells that a
    pipe was just written, so the whitespace that follows is dropped. *)
Fixpoint pipe_from (skip : bool) (s : str) : str :=
  match s with
  | [] => []
  | c :: t =>
    if c =? 124 then 32 :: 124 :: 32 :: pipe_from true t
    else if py_isspace c then
      (if skip || next_is_pipe t then pipe_from skip t
       else c :: pipe_from false t)
    else c :: pipe_from false t
  end.

(** The characters that the tilde, ligature and hyphen rules delete. *)
Definition deleted_symbol (c : char) : bool :=
  (c =? 126) || (c =? 45) || mem c (u "ŒœŸÿ").

(** A string on which none of those three rules can act. *)
Definition plain (s : str) : bool := forallb (fun c => negb (deleted_symbol c)) s.

(* ================================================================== *)
(** * Strings as words with gaps *)
(* ================================================================== *)

(** A string whose only whitespace is the space is a sequence of
    characters, each preceded by a number of spaces, followed by a
    number of trailing spaces. *)
Definition token := (nat * char)%type.

Definition spaces (n : nat) : str := repeat 32 n.

Fixpoint decode (toks : list token) (trailing : nat) : str :=
  match toks with
  | [] => spaces trailing
  | (g, c) :: rest => spaces g ++ c :: decode rest trailing
  end.

(** No token character is whitespace. *)
Definition solid (toks : list token) : bool :=
  forallb (fun gc => negb (py_isspace (snd gc))) toks.

(** The string's only whitespace is the space. *)
Definition space_only (s : str) : bool :=
  forallb (fun c => negb (py_isspace c) || (c =? 32)) s.

(** The scans of the normalizer, on the gaps. *)
Definition collapse_toks (toks : list token) : list token :=
  map (fun gc => (Nat.min (fst gc) 1, snd gc)) toks.

Definition drop_toks (toks : list token) : list token :=
  map (fun gc => (if punct (snd gc) then O else fst gc, snd gc)) toks.

Fixpoint pipe_toks (after_pipe : bool) (toks : list token) : list token :=
  match toks with
  | [] => []
  | (g, c) :: rest =>
    (if c =? 124 then (if after_pipe then 2 else 1)%nat
     else if after_pipe then 1%nat else g, c)
    :: pipe_toks (c =? 124) rest
  end.

Definition is_pipe (prev : option char) : bool :=
  match prev with Some c => c =? 124 | None => false end.

(** Is the last character a pipe ([after_pipe] tells it of the
    character before the tokens). *)
Fixpoint ends_with_pipe (after_pipe : bool) (toks : list token) : bool :=
  match toks with
  | [] => after_pipe
  | (_, c) :: rest => ends_with_pipe (c =? 124) rest
  end.

Definition is_lower (prev : option char) : bool :=
  match prev with Some c => ascii_lower c | None => false end.

Fixpoint split_toks (prev : option char) (toks : list token) : list token :=
  match toks with
  | [] => []
  | (g, c) :: rest =>
    (if Nat.eqb g 0 && is_lower prev && ascii_upper c then 1%nat else g, c)
    :: split_toks (Some c) rest
  end.

Definition strip_toks (toks : list token) : list token :=
  match toks with
  | [] => []
  | (_, c) :: rest => (O, c) :: rest
  end.

(** The gap the whole normalizer leaves before the character [c] that
    follows [prev]: none at the start, one space next to a pipe, none
    before a punctuation mark, one at a lowercase-uppercase boundary,
    and otherwise one exactly when there was whitespace. *)
Definition normal_gap (first : bool) (prev : option char) (g : nat) (c : char)
  : nat :=
  if first then O
  else if is_pipe prev || (c =? 124) then 1%nat
  else if punct c then O
  else if Nat.eqb g 0 then (if is_lower prev && ascii_upper c then 1%nat else O)
  else 1%nat.

Fixpoint normal_toks (first : bool) (prev : option char) (toks : list token)
  : list token :=
  match toks with
  | [] => []
  | (g, c) :: rest =>
    (normal_gap first prev g c, c) :: normal_toks false (Some c) rest
  end.

(* ================================================================== *)
(** * Properties of the string primitives *)
(* ================================================================== *)

Lemma str_eqb_refl (a : str) : str_eqb a a = true.
Proof.
  induction a as [|x a IH]; simpl; [reflexivity|].
  now rewrite N.eqb_refl, IH.
Qed.

Lemma str_eqb_eq (a b : str) : str_eqb a b = true <-> a = b.
Proof.
  split; [|intros ->; apply str_eqb_refl].
  revert b; induction a as [|x a IH]; intros [|y b]; simpl; try discriminate; auto.
  intros H; apply andb_true_iff in H as [H1 H2].
  apply N.eqb_eq in H1; subst. f_equal; auto.
Qed.

(** A property of the characters below U+0200 is checked on the table. *)
Lemma below_512 (P : char -> bool) :
  forallb P (map N.of_nat (List.seq 0 512)) = true ->
  forall c, c < 512 -> P c = true.
Proof.
  intros H c Hc.
  rewrite forallb_forall in H. apply H.
  rewrite <- (N2Nat.id c). apply in_map. apply in_seq. lia.
Qed.

Lemma lower_char_big (c : char) : 512 <= c -> lower_char c = c.
Proof.
  intros H. unfold lower_char, ascii_upper, in_range.
  replace (c <=? 90) with false by (symmetry; apply N.leb_gt; lia).
  replace (c <=? 222) with false by (symmetry; apply N.leb_gt; lia).
  replace (c =? 338) with false by (symmetry; apply N.eqb_neq; lia).
  replace (c =? 376) with false by (symmetry; apply N.eqb_neq; lia).
  now rewrite !andb_false_r.
Qed.

Lemma lower_char_idem (c : char) : lower_char (lower_char c) = lower_char c.
Proof.
  destruct (N.lt_ge_cases c 512) as [H|H].
  - apply N.eqb_eq.
    apply (below_512 (fun c => lower_char (lower_char c) =? lower_char c));
      [vm_compute; reflexivity | exact H].
  - now rewrite !(lower_char_big H).
Qed.

Lemma isspace_lower_char (c : char) : py_isspace (lower_char c) = py_isspace c.
Proof.
  destruct (N.lt_ge_cases c 512) as [H|H].
  - apply eqb_prop.
    apply (below_512 (fun c => Bool.eqb (py_isspace (lower_char c)) (py_isspace c)));
      [vm_compute; reflexivity | exact H].
  - now rewrite (lower_char_big H).
Qed.

Lemma py_lower_idem (s : str) : py_lower (py_lower s) = py_lower s.
Proof.
  unfold py_lower. rewrite map_map. apply map_ext. apply lower_char_idem.
Qed.

Lemma lstrip_lower (s : str) : lstrip (py_lower s) = py_lower (lstrip s).
Proof.
  induction s as [|c s IH]; simpl; [reflexivity|].
  rewrite isspace_lower_char. destruct (py_isspace c); [exact IH|reflexivity].
Qed.

Lemma rstrip_lower (s : str) : rstrip (py_lower s) = py_lower (rstrip s).
Proof.
  unfold rstrip, py_lower. rewrite <- map_rev.
  fold (py_lower (rev s)). rewrite lstrip_lower. unfold py_lower.
  now rewrite map_rev.
Qed.

Lemma strip_lower (s : str) : py_strip (py_lower s) = py_lower (py_strip s).
Proof.
  unfold py_strip. now rewrite lstrip_lower, rstrip_lower.
Qed.

(** What [rstrip] does, read from the left. *)
Lemma rstrip_snoc (s : str) (c : char) :
  rstrip (s ++ [c]) = if py_isspace c then rstrip s else s ++ [c].
Proof.
  unfold rstrip. rewrite rev_app_distr. simpl.
  destruct (py_isspace c); [reflexivity|].
  simpl. now rewrite rev_involutive.
Qed.

Lemma rstrip_cons (c : char) (s : str) :
  rstrip (c :: s) =
  match rstrip s with
  | [] => if py_isspace c then [] else [c]
  | r => c :: r
  end.
Proof.
  induction s as [|x s IH] using rev_ind.
  - change (rstrip ([] ++ [c]) = if py_isspace c then [] else [c]).
    rewrite rstrip_snoc. now destruct (py_isspace c).
  - rewrite app_comm_cons, !rstrip_snoc.
    destruct (py_isspace x); [exact IH|].
    destruct s; reflexivity.
Qed.

Lemma lstrip_idem (s : str) : lstrip (lstrip s) = lstrip s.
Proof.
  induction s as [|c s IH]; simpl; [reflexivity|].
  destruct (py_isspace c) eqn:E; [exact IH|]. simpl. now rewrite E.
Qed.

Lemma rstrip_idem (s : str) : rstrip (rstrip s) = rstrip s.
Proof.
  unfold rstrip. now rewrite rev_involutive, lstrip_idem.
Qed.

Lemma lstrip_length (s : str) : (List.length (lstrip s) <= List.length s)%nat.
Proof.
  induction s as [|x t IH]; simpl; [lia|]. destruct (py_isspace x); simpl; lia.
Qed.

(** A string that does not start with whitespace still does not after
    [rstrip]. *)
Lemma lstrip_rstrip_fix (s : str) : lstrip s = s -> lstrip (rstrip s) = rstrip s.
Proof.
  destruct s as [|c s]; [reflexivity|].
  simpl. destruct (py_isspace c) eqn:E.
  - intros H. exfalso.
    pose proof (lstrip_length s) as L. rewrite H in L. simpl in L. lia.
  - intros _. rewrite rstrip_cons, E.
    destruct (rstrip s); simpl; now rewrite E.
Qed.

Lemma py_strip_idem (s : str) : py_strip (py_strip s) = py_strip s.
Proof.
  unfold py_strip.
  rewrite (lstrip_rstrip_fix (lstrip_idem s)).
  apply rstrip_idem.
Qed.

Lemma rstrip_length (s : str) : (List.length (rstrip s) <= List.length s)%nat.
Proof.
  unfold rstrip. rewrite length_rev. rewrite <- (length_rev s). apply lstrip_length.
Qed.

Lemma py_strip_length (s : str) : (len (py_strip s) <= len s)%nat.
Proof.
  unfold py_strip, len.
  pose proof (rstrip_length (lstrip s)). pose proof (lstrip_length s). lia.
Qed.

(** C10: [_is_unwanted_content] depends only on the lower-cased,
    trimmed form of its input: its answer on a string is its answer on
    that form, so letter case and surrounding whitespace do not
    matter. *)
Theorem unwanted_depends_on_lowered_trimmed (s : str) :
  _is_unwanted_content s = _is_unwanted_content (py_lower (py_strip s)).
Proof.
  unfold _is_unwanted_content.
  rewrite py_lower_idem, <- strip_lower, py_strip_idem. reflexivity.
Qed.

Lemma unwanted_invariant (s1 s2 : str) :
  py_lower (py_strip s1) = py_lower (py_strip s2) ->
  _is_unwanted_content s1 = _is_unwanted_content s2.
Proof.
  intros H. unfold _is_unwanted_content.
  now rewrite !strip_lower, H.
Qed.

(* ================================================================== *)
(** * The classifiers *)
(* ================================================================== *)

(** C2, as stated, fails: on a two-character string [_is_author_line]
    answers false, not true. *)
Lemma author_line_short_is_false :
  (len (u "ab") < 3)%nat /\ _is_author_line (u "ab") = false.
Proof. split; [vm_compute; lia | vm_compute; reflexivity]. Qed.

Lemma author_line_guard (s : str) :
  (len (py_strip s) < 3)%nat -> _is_author_line s = false.
Proof.
  intros H. apply Nat.ltb_lt in H. unfold _is_author_line. now rewrite H.
Qed.

Lemma unwanted_guard (s : str) :
  (len (py_strip (py_lower s)) < 3)%nat -> _is_unwanted_content s = true.
Proof.
  intros H. apply Nat.ltb_lt in H.
  unfold _is_unwanted_content, unwanted_lower. now rewrite H.
Qed.

(** C2, amended: the length guard of [_is_author_line] answers false
    whenever the trimmed text has fewer than 3 characters, and the one
    of [_is_unwanted_content] answers true whenever the lower-cased,
    trimmed text has fewer than 3 characters. *)
Theorem length_floor (s : str) :
  ((len (py_strip s) < 3)%nat -> _is_author_line s = false)
  /\ ((len (py_strip (py_lower s)) < 3)%nat -> _is_unwanted_content s = true).
Proof. split; [apply author_line_guard | apply unwanted_guard]. Qed.

Lemma length_floor_witness :
  _is_author_line (u "ab") = false /\ _is_unwanted_content (u "ab") = true.
Proof.
  split.
  - apply (proj1 (@length_floor (u "ab"))). vm_compute. lia.
  - apply (proj2 (@length_floor (u "ab"))). vm_compute. lia.
Defined.

(** In the model lower-casing keeps the length, so both guards cover
    every string of fewer than 3 characters. *)
Lemma guards_cover_short_strings (s : str) :
  (len s < 3)%nat -> _is_author_line s = false /\ _is_unwanted_content s = true.
Proof.
  intros H. split.
  - apply author_line_guard. pose proof (py_strip_length s). lia.
  - apply unwanted_guard. pose proof (py_strip_length (py_lower s)).
    unfold py_lower, len in *. rewrite length_map in *. lia.
Qed.

(** C3, as stated, fails: the narrative sentence is classified as an
    author line. *)
Lemma via_sentence_is_author_line : _is_author_line via_sentence <> false.
Proof. vm_compute. discriminate. Qed.

(** C3, amended: the name list is an author line; so is the sentence,
    because its lower-cased text contains the address keyword "via ";
    with "by" in place of "via" the sentence is not. *)
Theorem author_line_examples :
  _is_author_line name_list = true
  /\ re_search author_pattern_1 name_list = true
  /\ _is_author_line via_sentence = true
  /\ py_in (u "via ") (py_lower via_sentence) = true
  /\ In (u "via ") problematic_patterns
  /\ _is_author_line by_sentence = false.
Proof.
  repeat split; try (vm_compute; reflexivity).
  unfold problematic_patterns. apply in_map. simpl. tauto.
Qed.

(* ================================================================== *)
(** * The enhanced extractor *)
(* ================================================================== *)

(** C9: after an "Abstract" header directly followed by a "Methods"
    header the flags [capturing_abstract] and [capturing_main] are both
    set, and the next paragraph is collected twice. *)
Theorem capture_flags_overlap :
  capture_scan abstract_then_methods initial_capture =
  Ok (mkCap true false true
        [u "Some paragraph of text"] [] [u "Some paragraph of text"]).
Proof. vm_compute. reflexivity. Qed.

Lemma existsb_str_eqb_In (w : str) (l : list str) :
  existsb (str_eqb w) l = true <-> In w l.
Proof.
  rewrite existsb_exists. split.
  - intros [x [Hx E]]. apply str_eqb_eq in E. now subst.
  - intros H. exists w. split; [exact H | apply str_eqb_refl].
Qed.

Lemma to_set_In (w : str) (l : list str) : In w (to_set l) <-> In w l.
Proof.
  induction l as [|x l IH]; simpl; [tauto|].
  destruct (existsb (str_eqb x) l) eqn:E.
  - rewrite IH. apply existsb_str_eqb_In in E. split; [tauto|].
    intros [->|H]; assumption.
  - simpl. rewrite IH. tauto.
Qed.

Lemma common_self (l : list str) : common l l = List.length l.
Proof.
  unfold common. f_equal.
  apply forallb_filter_id. apply forallb_forall. intros w Hw.
  now apply existsb_str_eqb_In.
Qed.

(** A title with at least one word overlaps itself fully. *)
Lemma below_overlap_self (title : str) :
  word_set title <> [] -> below_overlap title title = false.
Proof.
  intros H. unfold below_overlap. rewrite common_self.
  apply Nat.ltb_ge. destruct (word_set title); [congruence|]. simpl. lia.
Qed.

(** C7, as stated, fails: every word of the fragment occurs in the
    title, and the fragment is kept. *)
Lemma fragment_of_title_is_kept :
  shares_70_of_its_words flavonoid_title flavonoid_fragment = true
  /\ remove_duplicate_title flavonoid_title
       [flavonoid_title; flavonoid_title; flavonoid_fragment]
     = [flavonoid_title; flavonoid_fragment].
Proof. split; vm_compute; reflexivity. Qed.

(** C7, amended: the pass keeps the title once and, of the other
    fragments, exactly those in which fewer than 70% of the title's
    distinct lower-cased words occur; the repeated title is removed. *)
Theorem dedup_by_title_words (title : str) (extracted_content : list str) :
  nonempty title = true ->
  (1 < List.length extracted_content)%nat ->
  hd [] (remove_duplicate_title title extracted_content) = title
  /\ (forall piece,
        In piece (tl (remove_duplicate_title title extracted_content)) <->
        In piece (tl extracted_content)
        /\ (10 * common (word_set title) (word_set piece)
            < 7 * Nat.max (List.length (word_set title)) 1)%nat)
  /\ (word_set title <> [] ->
      ~ In title (tl (remove_duplicate_title title extracted_content))).
Proof.
  intros Ht Hl. unfold remove_duplicate_title.
  apply Nat.ltb_lt in Hl. rewrite Ht, Hl. simpl.
  split; [reflexivity|]. split.
  - intros piece. rewrite filter_In. unfold below_overlap.
    now rewrite Nat.ltb_lt.
  - intros Hw Hin. apply filter_In in Hin as [_ Hin].
    now rewrite (below_overlap_self _ Hw) in Hin.
Qed.

Lemma dedup_by_title_words_witness :
  hd [] (remove_duplicate_title flavonoid_title
           [flavonoid_title; flavonoid_title; flavonoid_fragment])
  = flavonoid_title
  /\ ~ In flavonoid_title
         (tl (remove_duplicate_title flavonoid_title
                [flavonoid_title; flavonoid_title; flavonoid_fragment])).
Proof.
  assert (H1 : nonempty flavonoid_title = true) by reflexivity.
  assert (H2 : (1 < List.length
                  [flavonoid_title; flavonoid_title; flavonoid_fragment])%nat)
    by (simpl; lia).
  destruct (@dedup_by_title_words flavonoid_title
              [flavonoid_title; flavonoid_title; flavonoid_fragment] H1 H2)
    as [A [_ C]].
  split; [exact A|]. apply C. vm_compute. discriminate.
Defined.

(* ================================================================== *)
(** * Loops *)
(* ================================================================== *)

Lemma run_loop_app (S : Type) (step : S -> pyval -> result (flow S))
    (pre post : list pyval) (s : S) :
  run_loop step (pre ++ post) s =
  (r <- run_loop step pre s ;;
   match r with
   | Next s' => run_loop step post s'
   | Break s' => Ok (Break s')
   end).
Proof.
  revert s. induction pre as [|x pre IH]; intros s; simpl; [reflexivity|].
  destruct (step s x) as [[s'|s']|e]; simpl; auto.
Qed.

(* ================================================================== *)
(** * The fallback cascade *)
(* ================================================================== *)

(** C4, as stated, fails: a main text of eleven words whose last two
    are one word broken by a hyphen is normalized to ten words, and
    the full-page dump is called. *)
Lemma long_main_text_triggers_dump :
  (10 < word_count broken_word_text)%nat
  /\ combine_to_paragraph (to_dict (mkResult [] [] broken_word_text))
     = Ok (u "one two three four five six seven eight nine antiinflammatory")
  /\ fallback_for (mkResult [] [] broken_word_text) = Ok FullPageDump.
Proof. repeat split; vm_compute; first [reflexivity | lia]. Qed.

(** C4, amended: the full-page dump is called exactly when the
    combined normalized text has 10 or fewer words, so an extraction
    result whose normalized combination has more than 10 words never
    triggers it; the enhanced extractor is called on the branch of
    11 to 99 words, a missing "introduction" or the problem phrase,
    and its output replaces the combined text only when non-empty and
    strictly longer by word count. *)
Theorem cascade_thresholds :
  (forall combined,
     choose_fallback combined = FullPageDump
     <-> (word_count combined <= 10)%nat)
  /\ (forall combined,
        choose_fallback combined = EnhancedExtraction
        <-> (10 < word_count combined)%nat
            /\ ((word_count combined < 100)%nat
                \/ py_in (u "introduction") (py_lower combined) = false
                \/ py_in (u "phytochemical analysis") (py_lower combined) = true))
  /\ (forall r combined,
        combine_to_paragraph (to_dict r) = Ok combined ->
        (10 < word_count combined)%nat ->
        fallback_for r <> Ok FullPageDump)
  /\ (forall json_data r combined text fb,
        extract_from_docling_document json_data = Ok r ->
        combine_to_paragraph r = Ok combined ->
        extract_pdf_text json_data = Ok (text, fb) ->
        fb = choose_fallback combined
        /\ (fb = NoFallback -> text = combined)
        /\ (fb = EnhancedExtraction -> text <> combined ->
            extract_enhanced_paper_content json_data = Ok text
            /\ nonempty text = true
            /\ (word_count combined < word_count text)%nat)).
Proof.
  assert (A : forall combined,
             choose_fallback combined = FullPageDump
             <-> (word_count combined <= 10)%nat).
  { intros combined. unfold choose_fallback.
    destruct (Nat.leb_spec (word_count combined) 10) as [H|H].
    - tauto.
    - split; [|lia].
      match goal with |- context [if ?b then _ else _] => destruct b end;
        discriminate. }
  split; [exact A|]. split; [|split].
  - intros combined. unfold choose_fallback.
    destruct (Nat.leb_spec (word_count combined) 10) as [H|H].
    + split; [discriminate | lia].
    + destruct (Nat.ltb_spec (word_count combined) 100) as [H1|H1];
        destruct (py_in (u "introduction") (py_lower combined));
        destruct (py_in (u "phytochemical analysis") (py_lower combined));
        simpl; split; intros; try discriminate; try tauto; try lia;
        try (split; [lia|tauto]).
  - intros r combined Hc Hw. unfold fallback_for. rewrite Hc. simpl.
    intros E. injection E as E. apply A in E. lia.
  - intros json_data r combined text fb Hr Hc Hp.
    unfold extract_pdf_text in Hp. rewrite Hr in Hp. simpl in Hp.
    rewrite Hc in Hp. simpl in Hp.
    destruct (choose_fallback combined) eqn:Ef.
    + destruct (extract_full_page_text json_data); simpl in Hp;
        [|discriminate].
      injection Hp as Ht <-. repeat split; intros; discriminate.
    + destruct (extract_enhanced_paper_content json_data) as [e|]; simpl in Hp;
        [|discriminate].
      injection Hp as Ht <-. split; [reflexivity|]. split; [discriminate|].
      intros _ Hne.
      destruct (nonempty e && (word_count combined <? word_count e)%nat) eqn:Eb;
        [|congruence].
      subst text. apply andb_true_iff in Eb as [E1 E2].
      apply Nat.ltb_lt in E2. auto.
    + injection Hp as Ht <-. repeat split; auto; intros; discriminate.
Qed.

Lemma cascade_thresholds_witness :
  (10 < word_count eleven_words)%nat
  /\ fallback_for (mkResult [] [] eleven_words) <> Ok FullPageDump.
Proof.
  assert (H : (10 < word_count eleven_words)%nat) by (vm_compute; lia).
  split; [exact H|].
  apply (proj1 (proj2 (proj2 cascade_thresholds))
           (mkResult [] [] eleven_words) eleven_words);
    [vm_compute; reflexivity | exact H].
Defined.

Ltac case_if :=
  match goal with |- context [if ?b then Ok _ else _] => destruct b end.

(* ================================================================== *)
(** * The section extractor *)
(* ================================================================== *)

Lemma text_stripped_dict (d : list (str * pyval)) :
  wf_text d = true ->
  text_stripped (PDict d) =
  Ok (py_strip (match dict_lookup (u "text") d with
                | Some (PStr s) => s
                | _ => []
                end)).
Proof.
  unfold wf_text, text_stripped, py_get. simpl.
  destruct (dict_lookup (u "text") d) as [[]|]; simpl; congruence.
Qed.

(** On a well-formed block the title loop breaks exactly on a
    candidate. *)
Lemma title_step_candidate (st : str) (text : pyval) :
  well_formed_block text = true ->
  title_step st text =
  Ok (match title_candidate text with
      | Some t => Break t
      | None => Next []
      end).
Proof.
  destruct text as [| | | | |d]; try (intros H; discriminate H).
  intros H. cbn [well_formed_block] in H.
  apply andb_true_iff in H as [H _].
  apply andb_true_iff in H as [H _].
  unfold title_candidate.
  unfold title_step. rewrite (text_stripped_dict _ H).
  unfold label_of, py_get. cbn [bind].
  unfold wf_text in H.
  destruct (is_section_header _); cbn [andb]; [|reflexivity].
  destruct (py_eq_int _ 1); cbn [andb].
  - destruct (dict_lookup (u "text") d) as [[]|]; try discriminate;
      cbn [bind as_str]; case_if; reflexivity.
  - destruct (dict_lookup (u "text") d) as [[]|]; case_if; reflexivity.
Qed.

Lemma title_loop_first_candidate (texts : list pyval) :
  forallb well_formed_block texts = true ->
  exists r, run_loop title_step texts [] = Ok r
            /\ flow_state r = first_title texts.
Proof.
  induction texts as [|x texts IH]; intros H.
  - exists (Next []). split; reflexivity.
  - simpl in H. apply andb_true_iff in H as [Hx Hr].
    simpl. rewrite (title_step_candidate [] _ Hx).
    destruct (title_candidate x) as [t|]; simpl.
    + exists (Break t). split; reflexivity.
    + apply (IH Hr).
Qed.

(** C5, as stated, fails: a long level-2 header that precedes the
    level-1 header becomes the title. *)
Lemma level1_header_not_preferred :
  title_candidate (header 1 "The Real Title") = Some (u "The Real Title")
  /\ find_title level2_before_level1
     = Ok (u "A sufficiently long second level header").
Proof. split; vm_compute; reflexivity. Qed.

(** C5, amended: on well-formed blocks the title is the one given by
    the first section header, in document order, that qualifies under
    its own rule (the level-1 rule for a level-1 header, the rule of
    the long header for a header of any other level); a qualifying
    level-1 header wins only if no header before it qualifies. *)
Theorem title_is_first_candidate (texts : list pyval) :
  forallb well_formed_block texts = true ->
  find_title texts = Ok (first_title texts).
Proof.
  intros H. unfold find_title, for_each.
  destruct (title_loop_first_candidate texts H) as [r [E P]].
  rewrite E. simpl. now rewrite P.
Qed.

Lemma title_is_first_candidate_witness :
  find_title level2_before_level1 = Ok (first_title level2_before_level1).
Proof.
  apply title_is_first_candidate. vm_compute. reflexivity.
Defined.

Lemma any_in_nil (keys : list str) :
  forallb nonempty keys = true -> any_in keys [] = false.
Proof.
  unfold any_in. induction keys as [|k keys IH]; simpl; [reflexivity|].
  intros H. apply andb_true_iff in H as [H1 H2].
  destruct k; [discriminate|]. simpl. auto.
Qed.

(** C6, as stated, fails: a header that names the introduction and
    also carries the inline marker "abstract:" is appended to the
    abstract, and collection goes on after it. *)
Lemma marked_introduction_is_collected :
  for_each abstract_step marked_introduction (mkAbs false [])
  = Ok (mkAbs true [u "foo"; u "Introduction abstract: bar"; u "baz"]).
Proof. vm_compute. reflexivity. Qed.

(** C6, amended: while the abstract is being collected, a section
    header whose text names INTRODUCTION, EXPERIMENTAL, METHODS or
    RESULTS and does not contain "ABSTRACT:" (in any letter case) ends
    the collection there: the abstract is what was collected before
    it, without the header's text and without any later block. *)
Theorem abstract_stops_at_section_header
    (pre post : list pyval) (h : pyval) (st : abstract_state)
    (content : str) (label : pyval) :
  run_loop abstract_step pre (mkAbs false []) = Ok (Next st) ->
  collecting_abstract st = true ->
  text_stripped h = Ok content ->
  label_of h = Ok label ->
  is_section_header label = true ->
  any_in abstract_stop_keywords (py_upper content) = true ->
  py_in (u "ABSTRACT:") (py_upper content) = false ->
  for_each abstract_step (pre ++ h :: post) (mkAbs false []) = Ok st.
Proof.
  intros Hpre Hc Ht Hl Hh Hk Hm.
  unfold for_each. rewrite run_loop_app, Hpre. cbn [bind run_loop].
  unfold abstract_step. rewrite Ht, Hl. cbn [bind].
  destruct content as [|c content].
  - exfalso. change (py_upper []) with (@nil char) in Hk.
    rewrite any_in_nil in Hk; [discriminate | reflexivity].
  - cbn [nonempty negb]. rewrite Hh, Hm, Hc, Hk. cbn [andb].
    destruct (str_eqb (py_upper (c :: content)) (u "ABSTRACT")) eqn:E.
    + exfalso. apply str_eqb_eq in E. rewrite E in Hk.
      vm_compute in Hk. discriminate.
    + reflexivity.
Qed.

Lemma abstract_stops_at_section_header_witness :
  for_each abstract_step plain_introduction (mkAbs false [])
  = Ok (mkAbs true [u "foo"]).
Proof.
  apply (@abstract_stops_at_section_header
           [header 2 "Abstract"; paragraph "foo"] [paragraph "baz"]
           (header 2 "1 | Introduction") (mkAbs true [u "foo"])
           (u "1 | Introduction") (PStr (u "section_header")));
    vm_compute; reflexivity.
Defined.

(* ================================================================== *)
(** * Totality on well-formed input *)
(* ================================================================== *)

Lemma returns_ok (A : Type) (a : A) : returns (Ok a).
Proof. now exists a. Qed.

Lemma returns_bind (A B : Type) (c : result A) (f : A -> result B) :
  returns c -> (forall a, returns (f a)) -> returns (x <- c ;; f x).
Proof. intros [a ->] H. apply H. Qed.

Lemma returns_if (A : Type) (b : bool) (c1 c2 : result A) :
  returns c1 -> returns c2 -> returns (if b then c1 else c2).
Proof. now destruct b. Qed.

Lemma number_le (v : pyval) (n : Z) : is_number v = true -> returns (py_le v n).
Proof.
  unfold is_number, py_le. destruct (as_number v); [|discriminate].
  intros _. apply returns_ok.
Qed.

Lemma number_gt (v : pyval) (n : Z) : is_number v = true -> returns (py_gt v n).
Proof.
  unfold is_number, py_gt. destruct (as_number v); [|discriminate].
  intros _. apply returns_ok.
Qed.

Lemma wf_block_dict (text : pyval) :
  well_formed_block text = true ->
  exists d, text = PDict d /\ wf_text d = true /\ wf_prov d = true
            /\ wf_font_size d = true.
Proof.
  destruct text as [| | | | |d]; try (intros H; discriminate H).
  cbn [well_formed_block]. intros H.
  apply andb_true_iff in H as [H H3]. apply andb_true_iff in H as [H1 H2].
  now exists d.
Qed.

Lemma text_stripped_returns (text : pyval) :
  well_formed_block text = true -> returns (text_stripped text).
Proof.
  intros H. destruct (wf_block_dict _ H) as [d [-> [H1 _]]].
  rewrite (text_stripped_dict _ H1). apply returns_ok.
Qed.

Lemma label_of_returns (text : pyval) :
  well_formed_block text = true -> returns (label_of text).
Proof.
  intros H. destruct (wf_block_dict _ H) as [d [-> _]]. apply returns_ok.
Qed.

Lemma get_returns (text : pyval) (key : string) (default : pyval) :
  well_formed_block text = true -> returns (py_get text key default).
Proof.
  intros H. destruct (wf_block_dict _ H) as [d [-> _]]. apply returns_ok.
Qed.

(** The page number of a well-formed block is a number. *)
Lemma page_no_of_number (text : pyval) :
  well_formed_block text = true ->
  exists n, page_no_of text = Ok n /\ is_number n = true.
Proof.
  intros H. destruct (wf_block_dict _ H) as [d [-> [_ [H2 _]]]].
  unfold page_no_of, py_get, wf_prov in *. cbn [bind].
  destruct (dict_lookup (u "prov") d) as [prov|].
  - destruct (py_truthy prov); [|now exists (PInt 1)].
    destruct prov as [| | | |[|[| | | | |e] l]|]; try discriminate.
    cbn [bind py_index0].
    destruct (dict_lookup (u "page_no") e) as [n|]; [now exists n|].
    now exists (PInt 1).
  - now exists (PInt 1).
Qed.

Lemma early_page_no_number (text : pyval) :
  well_formed_block text = true ->
  exists n, early_page_no text = Ok n /\ is_number n = true.
Proof.
  intros H. destruct (wf_block_dict _ H) as [d [-> [_ [H2 _]]]].
  unfold early_page_no, py_get, wf_prov in *. cbn [bind].
  destruct (dict_lookup (u "prov") d) as [prov|].
  - destruct (py_truthy prov); [|now exists (PInt 1)].
    destruct prov as [| | | |[|[| | | | |e] l]|]; try discriminate.
    cbn [bind py_index0 py_len List.length Nat.ltb Nat.leb].
    destruct (dict_lookup (u "page_no") e) as [n|]; [now exists n|].
    now exists (PInt 1).
  - now exists (PInt 1).
Qed.

(** Each branch of a step is closed by one of these. *)
Ltac total :=
  repeat first
    [ progress cbn [bind]
    | apply text_stripped_returns; assumption
    | apply label_of_returns; assumption
    | apply get_returns; assumption
    | apply number_le; assumption
    | apply number_gt; assumption
    | apply returns_ok
    | apply returns_if
    | apply returns_bind; [|intros ?] ].

Lemma title_step_returns st text :
  well_formed_block text = true -> returns (title_step st text).
Proof.
  intros H. rewrite (title_step_candidate st _ H). apply returns_ok.
Qed.

Lemma abstract_step_returns st text :
  well_formed_block text = true -> returns (abstract_step st text).
Proof. intros H. unfold abstract_step. total. Qed.

Lemma main_step_returns st text :
  well_formed_block text = true -> returns (main_step st text).
Proof.
  intros H. unfold main_step.
  destruct (page_no_of_number _ H) as [n [E Hn]]. rewrite E. total.
Qed.

Lemma lenient_step_returns st text :
  well_formed_block text = true -> returns (lenient_step st text).
Proof.
  intros H. unfold lenient_step.
  destruct (page_no_of_number _ H) as [n [E Hn]]. rewrite E. total.
Qed.

Lemma font_size_number (text : pyval) :
  well_formed_block text = true ->
  exists n, py_get text "font_size" (PInt 0) = Ok n /\ is_number n = true.
Proof.
  intros H. destruct (wf_block_dict _ H) as [d [-> [_ [_ H3]]]].
  unfold py_get, wf_font_size in *.
  destruct (dict_lookup (u "font_size") d) as [n|]; [now exists n|].
  now exists (PInt 0).
Qed.

Lemma backfill_title_step_returns st text :
  well_formed_block text = true -> returns (backfill_title_step st text).
Proof.
  intros H. unfold backfill_title_step.
  destruct (font_size_number _ H) as [n [E Hn]]. rewrite E. total.
Qed.

Lemma backfill_abstract_step_returns st text :
  well_formed_block text = true -> returns (backfill_abstract_step st text).
Proof. intros H. unfold backfill_abstract_step. total. Qed.

Lemma enhanced_title_step_returns st text :
  well_formed_block text = true -> returns (enhanced_title_step st text).
Proof. intros H. unfold enhanced_title_step. total. Qed.

Lemma capture_into_returns flag page_no limit content buffer :
  is_number page_no = true ->
  returns (capture_into flag page_no limit content buffer).
Proof. intros H. unfold capture_into. total. Qed.

Lemma capture_step_returns st text :
  well_formed_block text = true -> returns (capture_step st text).
Proof.
  intros H. unfold capture_step.
  destruct (page_no_of_number _ H) as [n [E Hn]]. rewrite E.
  repeat first [ apply capture_into_returns; assumption | progress total ].
Qed.

Lemma rebuild_step_returns st text :
  well_formed_block text = true -> returns (rebuild_step st text).
Proof.
  intros H. unfold rebuild_step.
  destruct (page_no_of_number _ H) as [n [E Hn]]. rewrite E. total.
Qed.

Lemma keep_block_returns l text :
  well_formed_block text = true -> returns (keep_block l text).
Proof. intros H. unfold keep_block. total. Qed.

Lemma early_page_step_returns st text :
  well_formed_block text = true -> returns (early_page_step st text).
Proof.
  intros H. unfold early_page_step.
  destruct (early_page_no_number _ H) as [n [E Hn]]. rewrite E.
  repeat first [ apply keep_block_returns; assumption | progress total ].
Qed.

Lemma first_blocks_step_returns st text :
  well_formed_block text = true -> returns (first_blocks_step st text).
Proof.
  intros H. unfold first_blocks_step.
  repeat first [ apply keep_block_returns; assumption | progress total ].
Qed.

(** A loop over well-formed blocks runs to its end. *)
Lemma run_loop_returns (S : Type) (step : S -> pyval -> result (flow S))
    (texts : list pyval) :
  (forall st text, well_formed_block text = true -> returns (step st text)) ->
  forallb well_formed_block texts = true ->
  forall st, returns (run_loop step texts st).
Proof.
  intros Hstep. induction texts as [|x texts IH]; intros H st.
  - apply returns_ok.
  - simpl in H. apply andb_true_iff in H as [Hx Hr].
    simpl. destruct (Hstep st x Hx) as [[s'|s'] ->]; cbn [bind].
    + now apply IH.
    + apply returns_ok.
Qed.

Lemma for_each_returns (S : Type) (step : S -> pyval -> result (flow S))
    (texts : list pyval) :
  (forall st text, well_formed_block text = true -> returns (step st text)) ->
  forallb well_formed_block texts = true ->
  forall st, returns (for_each step texts st).
Proof.
  intros Hstep H st. unfold for_each.
  apply returns_bind; [now apply run_loop_returns | intros; apply returns_ok].
Qed.

Lemma capture_scan_returns (texts : list pyval) :
  forallb well_formed_block texts = true ->
  forall st, returns (capture_scan texts st).
Proof.
  induction texts as [|x texts IH]; intros H st.
  - apply returns_ok.
  - simpl in H. apply andb_true_iff in H as [Hx Hr].
    simpl. destruct (capture_step_returns st _ Hx) as [s' ->]; cbn [bind].
    now apply IH.
Qed.

Lemma extract_sections_returns (texts : list pyval) :
  forallb well_formed_block texts = true -> returns (extract_sections texts).
Proof.
  intros H. unfold extract_sections, find_title.
  repeat first
    [ apply for_each_returns;
      [ first [ apply title_step_returns | apply abstract_step_returns
              | apply main_step_returns | apply lenient_step_returns ]
      | assumption ]
    | apply returns_ok
    | apply returns_if
    | apply returns_bind; [|intros ?] ].
Qed.

Lemma backfill_returns (texts : list pyval) (r : ExtractionResult) :
  forallb well_formed_block texts = true -> returns (backfill texts r).
Proof.
  intros H. unfold backfill.
  apply returns_if; [|apply returns_ok].
  apply returns_bind.
  - apply returns_if; [|apply returns_ok].
    apply returns_bind; [|intros; apply returns_ok].
    apply for_each_returns; [apply backfill_title_step_returns | assumption].
  - intros r'. apply returns_if; [|apply returns_ok].
    apply returns_bind.
    + apply for_each_returns; [apply backfill_abstract_step_returns | assumption].
    + intros [|]; intros; apply returns_ok.
Qed.

(** The blocks of a well-formed document. *)
Lemma blocks_of_well_formed (doc_json : pyval) :
  well_formed_document doc_json = true ->
  exists d l,
    doc_json = PDict d
    /\ py_get doc_json "texts" (PList []) = Ok (PList l)
    /\ blocks_of doc_json = Ok l
    /\ forallb well_formed_block l = true.
Proof.
  destruct doc_json as [| | | | |d]; try (intros H; discriminate H).
  cbn [well_formed_document]. intros H. exists d.
  unfold blocks_of, py_get.
  destruct (dict_lookup (u "texts") d) as [[| | | |l|]|]; try discriminate.
  - exists l. auto.
  - exists []. auto.
Qed.

Lemma to_dict_well_formed (r : ExtractionResult) :
  well_formed_result (to_dict r) = true.
Proof. destruct r. vm_compute. reflexivity. Qed.

Lemma extract_from_docling_document_well_formed (doc_json : pyval) :
  well_formed_document doc_json = true ->
  exists v, extract_from_docling_document doc_json = Ok v
            /\ well_formed_result v = true.
Proof.
  intros H. destruct (blocks_of_well_formed _ H) as [d [l [-> [_ [Hb Hl]]]]].
  unfold extract_from_docling_document, py_contains, py_item. cbn [bind].
  destruct (dict_lookup (u "schema_name") d) as [tag|]; cbn [bind].
  - destruct (py_eq_str tag "DoclingDocument").
    + rewrite Hb. cbn [bind].
      destruct (extract_sections_returns _ Hl) as [r ->]. cbn [bind].
      destruct (@backfill_returns l r Hl) as [r' ->]. cbn [bind].
      eexists. split; [reflexivity | apply to_dict_well_formed].
    + eexists. split; [reflexivity | vm_compute; reflexivity].
  - eexists. split; [reflexivity | vm_compute; reflexivity].
Qed.

Lemma field_stripped_returns (d : list (str * pyval)) (key : string) :
  wf_str_field key d = true -> returns (field_stripped (PDict d) key).
Proof.
  unfold wf_str_field, field_stripped, py_get. cbn [bind].
  destruct (dict_lookup (u key) d) as [[]|]; try discriminate;
    intros _; apply returns_ok.
Qed.

Lemma combine_to_paragraph_returns (result_dict : pyval) :
  well_formed_result result_dict = true ->
  returns (combine_to_paragraph result_dict).
Proof.
  destruct result_dict as [| | | | |d]; try (intros _; apply returns_ok).
  cbn [well_formed_result]. intros H.
  apply andb_true_iff in H as [H H3]. apply andb_true_iff in H as [H1 H2].
  unfold combine_to_paragraph.
  repeat first [ apply field_stripped_returns; assumption
               | apply returns_ok
               | apply returns_bind; [|intros ?] ].
Qed.

Lemma extract_paper_content_returns (doc_json : pyval) :
  well_formed_document doc_json = true ->
  returns (extract_paper_content doc_json).
Proof.
  intros H. destruct (blocks_of_well_formed _ H) as [d [l [-> [_ [Hb Hl]]]]].
  unfold extract_paper_content. rewrite Hb. cbn [bind].
  apply returns_bind; [now apply extract_sections_returns|].
  intros; apply returns_ok.
Qed.

Lemma extract_enhanced_paper_content_returns (doc_json : pyval) :
  well_formed_document doc_json = true ->
  returns (extract_enhanced_paper_content doc_json).
Proof.
  intros H. destruct (blocks_of_well_formed _ H) as [d [l [-> [_ [Hb Hl]]]]].
  unfold extract_enhanced_paper_content. rewrite Hb. cbn [bind].
  apply returns_bind;
    [apply for_each_returns; [apply enhanced_title_step_returns | assumption]|].
  intros title. apply returns_bind; [now apply capture_scan_returns|].
  intros st. apply returns_bind; [|intros; apply returns_ok].
  apply returns_if; [|apply returns_ok].
  apply for_each_returns; [apply rebuild_step_returns | assumption].
Qed.

Lemma forallb_firstn (A : Type) (p : A -> bool) (n : nat) (l : list A) :
  forallb p l = true -> forallb p (firstn n l) = true.
Proof.
  revert n. induction l as [|x l IH]; intros [|n]; simpl; auto.
  intros H. apply andb_true_iff in H as [H1 H2]. rewrite H1. simpl. auto.
Qed.

Lemma extract_full_page_text_returns (doc_json : pyval) :
  well_formed_document doc_json = true ->
  returns (extract_full_page_text doc_json).
Proof.
  intros H. destruct (blocks_of_well_formed _ H) as [d [l [-> [Hg [_ Hl]]]]].
  unfold extract_full_page_text. rewrite Hg. cbn [bind py_iter].
  apply returns_bind;
    [apply for_each_returns; [apply early_page_step_returns | assumption]|].
  intros early. apply returns_bind; [|intros; apply returns_ok].
  apply returns_if; [|apply returns_ok].
  cbn [py_slice_to bind].
  apply for_each_returns; [apply first_blocks_step_returns|].
  now apply forallb_firstn.
Qed.

Lemma extract_pdf_text_returns (doc_json : pyval) :
  well_formed_document doc_json = true ->
  returns (extract_pdf_text doc_json).
Proof.
  intros H. unfold extract_pdf_text.
  destruct (extract_from_docling_document_well_formed _ H) as [v [-> Hv]].
  cbn [bind].
  destruct (combine_to_paragraph_returns _ Hv) as [combined ->]. cbn [bind].
  destruct (choose_fallback combined).
  - apply returns_bind; [now apply extract_full_page_text_returns|].
    intros; apply returns_ok.
  - apply returns_bind; [now apply extract_enhanced_paper_content_returns|].
    intros; apply returns_ok.
  - apply returns_ok.
Qed.

(** C1, as stated, fails: a block whose "text" is not a string makes
    the section extractor raise. *)
Lemma null_text_raises :
  extract_paper_content (docling [null_text_block]) = Raise AttributeError.
Proof. vm_compute. reflexivity. Qed.

(** C1, amended: the classifiers are total on strings, and every
    extraction function returns a value, never raising, on every
    document that is a mapping whose "texts", when present, is a list
    of mappings in which a present "text" is a string, a present
    non-empty "prov" is a list that starts with a mapping whose
    "page_no" is a number, and a present "font_size" is a number: the
    empty list, missing fields and unexpected labels are covered;
    [combine_to_paragraph] returns a value on everything that is not
    a mapping and on every mapping whose three fields are strings. *)
Theorem extraction_total_on_well_formed :
  (forall content, exists a b,
      _is_author_line content = a /\ _is_unwanted_content content = b)
  /\ (forall doc_json,
        well_formed_document doc_json = true ->
        returns (extract_paper_content doc_json)
        /\ returns (extract_from_docling_document doc_json)
        /\ returns (extract_enhanced_paper_content doc_json)
        /\ returns (extract_full_page_text doc_json)
        /\ returns (extract_pdf_text doc_json))
  /\ (forall result_dict,
        well_formed_result result_dict = true ->
        returns (combine_to_paragraph result_dict)).
Proof.
  split; [intros; eauto|]. split.
  - intros doc_json H. repeat split.
    + now apply extract_paper_content_returns.
    + destruct (extract_from_docling_document_well_formed _ H) as [v [E _]].
      now exists v.
    + now apply extract_enhanced_paper_content_returns.
    + now apply extract_full_page_text_returns.
    + now apply extract_pdf_text_returns.
  - apply combine_to_paragraph_returns.
Qed.

Lemma extraction_total_on_well_formed_witness :
  returns (extract_paper_content (docling sparse_blocks))
  /\ returns (extract_pdf_text (docling [])).
Proof.
  split.
  - apply (proj1 (proj2 extraction_total_on_well_formed)
             (docling sparse_blocks)). vm_compute. reflexivity.
  - apply (proj1 (proj2 extraction_total_on_well_formed) (docling [])).
    vm_compute. reflexivity.
Defined.

(* ================================================================== *)
(** * The matcher on the patterns of the normalizer *)
(* ================================================================== *)

Section Matcher.
Variable A : Type.
Implicit Types (k : captures -> option char -> str -> option A).

Lemma rmatch_Chr fuel p cs prev s k :
  rmatch fuel (Chr p) cs prev s k =
  match s with
  | c :: t => if p c then k cs (Some c) t else None
  | [] => None
  end.
Proof. destruct fuel; reflexivity. Qed.

Lemma rmatch_Seq fuel r1 r2 cs prev s k :
  rmatch fuel (Seq r1 r2) cs prev s k =
  rmatch fuel r1 cs prev s (fun cs' p' s' => rmatch fuel r2 cs' p' s' k).
Proof. destruct fuel; reflexivity. Qed.

Lemma rmatch_Group fuel n r cs prev s k :
  rmatch fuel (Group n r) cs prev s k =
  rmatch fuel r cs prev s
    (fun cs' p' s' =>
       k ((n, firstn (List.length s - List.length s') s) :: cs') p' s').
Proof. destruct fuel; reflexivity. Qed.

Lemma rmatch_Star_O r cs prev s k :
  rmatch 0 (Star r) cs prev s k = k cs prev s.
Proof. reflexivity. Qed.

Lemma rmatch_Star_S fuel r cs prev s k :
  rmatch (S fuel) (Star r) cs prev s k =
  match rmatch (S fuel) r cs prev s
          (fun cs' p' s' =>
             if (List.length s' <? List.length s)%nat
             then rmatch fuel (Star r) cs' p' s' k
             else None) with
  | Some a => Some a
  | None => k cs prev s
  end.
Proof. reflexivity. Qed.

(** With enough fuel the star over a character class is the greedy
    run. *)
Lemma rmatch_star_chr fuel p cs prev s k :
  (List.length s <= fuel)%nat ->
  rmatch fuel (Star (Chr p)) cs prev s k = star_chr p cs prev s k.
Proof.
  revert prev s. induction fuel as [|fuel IH]; intros prev s H.
  - destruct s; [reflexivity | simpl in H; lia].
  - rewrite rmatch_Star_S, rmatch_Chr.
    destruct s as [|c t]; [reflexivity|]. simpl star_chr.
    destruct (p c); [|reflexivity].
    replace (List.length t <? List.length (c :: t))%nat with true
      by (symmetry; apply Nat.ltb_lt; simpl; lia).
    rewrite IH by (simpl in H; lia). reflexivity.
Qed.

(** When the continuation fails in front of a whitespace character,
    only the longest run of whitespace can succeed. *)
Lemma star_chr_commit cs prev s k :
  (forall cs' p' x r, py_isspace x = true -> k cs' p' (x :: r) = None) ->
  star_chr py_isspace cs prev s k = k cs (run_prev prev s) (lstrip s).
Proof.
  intros Hk. revert prev. induction s as [|c t IH]; intros prev; simpl.
  - reflexivity.
  - destruct (py_isspace c) eqn:E; [|reflexivity].
    rewrite IH, (Hk cs prev c t E).
    now destruct (k cs (run_prev (Some c) t) (lstrip t)).
Qed.

End Matcher.

Lemma star_chr_greedy (A : Type) cs prev s
    (k : captures -> option char -> str -> option A) (a : A) :
  k cs (run_prev prev s) (lstrip s) = Some a ->
  star_chr py_isspace cs prev s k = Some a.
Proof.
  revert prev. induction s as [|c t IH]; intros prev; simpl.
  - auto.
  - destruct (py_isspace c); [|auto].
    intros H. now rewrite (IH _ H).
Qed.

Lemma mem_In (c : char) (l : list char) : mem c l = true <-> In c l.
Proof.
  induction l as [|x l IH]; simpl; [split; [discriminate | tauto]|].
  rewrite orb_true_iff, N.eqb_eq, IH. split; intros [H|H]; auto.
Qed.

Lemma punct_not_space (x : char) : punct x = true -> py_isspace x = false.
Proof.
  unfold punct, one_of. rewrite mem_In. intros H.
  vm_compute in H. repeat destruct H as [<-|H]; try reflexivity. contradiction.
Qed.

Lemma punct_not_upper (x : char) : punct x = true -> ascii_upper x = false.
Proof.
  unfold punct, one_of. rewrite mem_In. intros H.
  vm_compute in H. repeat destruct H as [<-|H]; try reflexivity. contradiction.
Qed.

Lemma lstrip_head (s : str) (x : char) (r : str) :
  lstrip s = x :: r -> py_isspace x = false.
Proof.
  induction s as [|c t IH]; simpl; [discriminate|].
  destruct (py_isspace c) eqn:E; [exact IH|]. intros H. now injection H as <- _.
Qed.

Lemma length_cons_minus (A : Type) (x : A) (l : list A) :
  (List.length (x :: l) - List.length l)%nat = 1%nat.
Proof. cbn [List.length]. lia. Qed.

(** r"\s+" at the current position. *)
Lemma match_spaces prev s :
  match_here re_spaces prev s =
  match s with
  | c :: t =>
    if py_isspace c then Some ([], run_prev (Some c) t, lstrip t) else None
  | [] => None
  end.
Proof.
  unfold match_here, re_spaces, plus, cls_s.
  rewrite rmatch_Seq, rmatch_Chr.
  destruct s as [|c t]; [reflexivity|].
  destruct (py_isspace c); [|reflexivity].
  rewrite rmatch_star_chr by (simpl; lia).
  now apply star_chr_greedy.
Qed.

(** r"\s+([.,;:?!])" at the current position. *)
Lemma match_space_punct prev s :
  match_here re_space_punct prev s =
  match s with
  | c :: t =>
    if py_isspace c then
      match lstrip t with
      | x :: r => if punct x then Some ([(1%nat, [x])], Some x, r) else None
      | [] => None
      end
    else None
  | [] => None
  end.
Proof.
  unfold match_here, re_space_punct, plus, cls_s.
  rewrite !rmatch_Seq, rmatch_Chr.
  destruct s as [|c t]; [reflexivity|].
  destruct (py_isspace c); [|reflexivity].
  rewrite rmatch_star_chr by (simpl; lia).
  rewrite star_chr_commit.
  - rewrite rmatch_Group, rmatch_Chr. fold punct.
    destruct (lstrip t) as [|x r]; [reflexivity|].
    destruct (punct x); [|reflexivity].
    rewrite length_cons_minus. reflexivity.
  - intros cs' p' x r Hx. rewrite rmatch_Group, rmatch_Chr. fold punct.
    destruct (punct x) eqn:E; [|reflexivity].
    apply punct_not_space in E. congruence.
Qed.

(** r"([a-z])([A-Z])" at the current position. *)
Lemma match_lower_upper prev s :
  match_here re_lower_upper prev s =
  match s with
  | a :: b :: t =>
    if ascii_lower a && ascii_upper b
    then Some ([(2%nat, [b]); (1%nat, [a])], Some b, t) else None
  | _ => None
  end.
Proof.
  unfold match_here, re_lower_upper, az, AZ.
  rewrite rmatch_Seq, !rmatch_Group, rmatch_Chr.
  change (range "a" "z") with ascii_lower.
  destruct s as [|a [|b t]]; try reflexivity.
  - now destruct (ascii_lower a).
  - destruct (ascii_lower a); [|reflexivity].
    rewrite rmatch_Group, rmatch_Chr.
    change (range "A" "Z") with ascii_upper.
    destruct (ascii_upper b); [|reflexivity].
    cbn [andb].
    rewrite !length_cons_minus. reflexivity.
Qed.

Lemma plain_cons (c : char) (s : str) :
  plain (c :: s) = true -> deleted_symbol c = false /\ plain s = true.
Proof.
  unfold plain. simpl. rewrite andb_true_iff, negb_true_iff. tauto.
Qed.

Lemma plain_lstrip (s : str) : plain s = true -> plain (lstrip s) = true.
Proof.
  induction s as [|c t IH]; simpl; [auto|].
  destruct (py_isspace c); [|auto].
  intros H. apply plain_cons in H as [_ H]. auto.
Qed.

Lemma plain_head (c : char) (s : str) :
  plain (c :: s) = true ->
  (c =? 126) = false /\ (c =? 45) = false /\ mem c (u "ŒœŸÿ") = false.
Proof.
  intros H. apply plain_cons in H as [H _]. unfold deleted_symbol in H.
  repeat (apply orb_false_iff in H as [H ?]). auto.
Qed.

(** r"\s*\|\s*" at the current position. *)
Lemma match_pipe prev s :
  match_here re_pipe prev s =
  match lstrip s with
  | x :: r =>
    if x =? 124 then Some ([], run_prev (Some x) r, lstrip r) else None
  | [] => None
  end.
Proof.
  unfold match_here.
  change re_pipe with
    (Seq (Star (Chr py_isspace))
       (Seq (Chr (is_chr 124)) (Star (Chr py_isspace)))).
  rewrite rmatch_Seq, rmatch_star_chr by lia.
  rewrite star_chr_commit.
  - rewrite rmatch_Seq, rmatch_Chr.
    destruct (lstrip s) as [|x r] eqn:E; [reflexivity|].
    unfold is_chr. destruct (x =? 124); [|reflexivity].
    rewrite rmatch_star_chr.
    + now apply star_chr_greedy.
    + pose proof (lstrip_length s) as L. rewrite E in L. simpl in L. lia.
  - intros cs' p' x t Hx. rewrite rmatch_Seq, rmatch_Chr. unfold is_chr.
    destruct (N.eqb_spec x 124) as [->|]; [discriminate Hx | reflexivity].
Qed.

(** r"\s*~\s*" finds no tilde in a plain string. *)
Lemma match_tilde_plain prev s :
  plain s = true -> match_here re_tilde prev s = None.
Proof.
  intros H. unfold match_here.
  change re_tilde with
    (Seq (Star (Chr py_isspace))
       (Seq (Chr (is_chr 126)) (Star (Chr py_isspace)))).
  rewrite rmatch_Seq, rmatch_star_chr by lia.
  rewrite star_chr_commit.
  - rewrite rmatch_Seq, rmatch_Chr.
    apply plain_lstrip in H. destruct (lstrip s) as [|x t]; [reflexivity|].
    apply plain_head in H as [H _]. unfold is_chr. now rewrite H.
  - intros cs' p' x t Hx. rewrite rmatch_Seq, rmatch_Chr. unfold is_chr.
    destruct (N.eqb_spec x 126) as [->|]; [discriminate Hx | reflexivity].
Qed.

Lemma match_ligature_plain prev s :
  plain s = true -> match_here re_ligature prev s = None.
Proof.
  intros H. unfold match_here, re_ligature. rewrite rmatch_Chr.
  destruct s as [|c t]; [reflexivity|].
  apply plain_head in H as [_ [_ H]]. unfold one_of. now rewrite H.
Qed.

Lemma match_hyphen_plain prev s :
  plain s = true -> match_here re_hyphen_break prev s = None.
Proof.
  intros H. unfold match_here.
  change re_hyphen_break with
    (Seq (Group 1 (Chr py_isword))
       (Seq (Chr (is_chr 45)) (Seq (plus cls_s) (Group 2 cls_w)))).
  rewrite rmatch_Seq, rmatch_Group, rmatch_Chr.
  destruct s as [|c t]; [reflexivity|].
  destruct (py_isword c); [|reflexivity].
  rewrite rmatch_Seq, rmatch_Chr.
  apply plain_cons in H as [_ H].
  destruct t as [|d t']; [reflexivity|].
  apply plain_head in H as [_ [H _]]. unfold is_chr. now rewrite H.
Qed.

(* ================================================================== *)
(** * The substitutions of the normalizer as direct scans *)
(* ================================================================== *)

Lemma sub_from_S fuel r t prev s :
  sub_from (S fuel) r t prev s =
  match match_here r prev s with
  | Some (cs, p', s') =>
    if (List.length s' <? List.length s)%nat
    then expand t cs ++ sub_from fuel r t p' s'
    else expand t cs ++
         match s with
         | [] => []
         | c :: s1 => c :: sub_from fuel r t (Some c) s1
         end
  | None =>
    match s with
    | [] => []
    | c :: s1 => c :: sub_from fuel r t (Some c) s1
    end
  end.
Proof. reflexivity. Qed.

(** A pattern that matches nowhere in a plain string leaves it as it
    is. *)
Lemma sub_from_plain fuel r t prev s :
  (forall p' s', plain s' = true -> match_here r p' s' = None) ->
  plain s = true ->
  sub_from fuel r t prev s = s.
Proof.
  intros Hr. revert prev s. induction fuel as [|fuel IH]; intros prev s H.
  - reflexivity.
  - rewrite sub_from_S, (Hr prev s H).
    destruct s as [|c s1]; [reflexivity|].
    apply plain_cons in H as [_ H]. now rewrite IH.
Qed.

Lemma collapse_skip (s : str) :
  collapse_from true s = collapse_from false (lstrip s).
Proof.
  induction s as [|c t IH]; simpl; [reflexivity|].
  destruct (py_isspace c) eqn:E; [exact IH|].
  simpl. now rewrite E.
Qed.

Lemma sub_spaces fuel prev s :
  (List.length s < fuel)%nat ->
  sub_from fuel re_spaces [space] prev s = collapse_from false s.
Proof.
  revert prev s. induction fuel as [|fuel IH]; intros prev s H; [lia|].
  rewrite sub_from_S, match_spaces.
  destruct s as [|c t]; [reflexivity|].
  simpl in H. pose proof (lstrip_length t) as L.
  cbn [collapse_from]. destruct (py_isspace c).
  - replace (List.length (lstrip t) <? List.length (c :: t))%nat with true
      by (symmetry; apply Nat.ltb_lt; simpl; lia).
    rewrite IH by lia. now rewrite collapse_skip.
  - now rewrite IH by lia.
Qed.

Lemma drop_leading (t : str) (x : char) (r : str) :
  lstrip t = x :: r -> punct x = true ->
  drop_before_punct t = x :: drop_before_punct r.
Proof.
  intros Ht Hx. induction t as [|d t IH]; [discriminate|].
  simpl in Ht. cbn [drop_before_punct].
  destruct (py_isspace d) eqn:E.
  - unfold next_is_punct. rewrite Ht, Hx. cbn [andb]. auto.
  - injection Ht as -> ->. reflexivity.
Qed.

Lemma sub_space_punct fuel prev s :
  (List.length s < fuel)%nat ->
  sub_from fuel re_space_punct [TRef 1] prev s = drop_before_punct s.
Proof.
  revert prev s. induction fuel as [|fuel IH]; intros prev s H; [lia|].
  rewrite sub_from_S, match_space_punct.
  destruct s as [|c t]; [reflexivity|].
  simpl in H. pose proof (lstrip_length t) as L.
  cbn [drop_before_punct]. unfold next_is_punct.
  destruct (py_isspace c); cbn [andb]; [|now rewrite IH by lia].
  destruct (lstrip t) as [|x r] eqn:Et; [now rewrite IH by lia|].
  destruct (punct x) eqn:Ex; [|now rewrite IH by lia].
  simpl in L.
  replace (List.length r <? List.length (c :: t))%nat with true
    by (symmetry; apply Nat.ltb_lt; simpl; lia).
  rewrite IH by lia. rewrite (drop_leading _ Et Ex). reflexivity.
Qed.

Lemma pipe_not_space (c : char) : (c =? 124) = true -> py_isspace c = false.
Proof. intros H. apply N.eqb_eq in H. now subst. Qed.

Lemma pipe_skip (s : str) : pipe_from true s = pipe_from false (lstrip s).
Proof.
  induction s as [|c t IH]; [reflexivity|].
  cbn [pipe_from lstrip].
  destruct (c =? 124) eqn:E.
  - rewrite (pipe_not_space _ E). cbn [pipe_from]. now rewrite E.
  - destruct (py_isspace c) eqn:Es; [exact IH|].
    cbn [pipe_from]. now rewrite E, Es.
Qed.

Lemma pipe_leading (sk : bool) (t : str) (x : char) (r : str) :
  lstrip t = x :: r -> (x =? 124) = true ->
  pipe_from sk t = 32 :: 124 :: 32 :: pipe_from true r.
Proof.
  intros Ht Hx. induction t as [|c t IH]; [discriminate|].
  cbn [pipe_from]. simpl in Ht.
  destruct (c =? 124) eqn:E.
  - rewrite (pipe_not_space _ E) in Ht. now injection Ht as _ ->.
  - destruct (py_isspace c) eqn:Es.
    + unfold next_is_pipe. rewrite Ht, Hx, orb_true_r. auto.
    + injection Ht as -> _. congruence.
Qed.

Lemma sub_pipe fuel prev s :
  (List.length s < fuel)%nat ->
  sub_from fuel re_pipe [space; TChr 124; space] prev s = pipe_from false s.
Proof.
  revert prev s. induction fuel as [|fuel IH]; intros prev s H; [lia|].
  rewrite sub_from_S, match_pipe.
  destruct s as [|c t]; [reflexivity|].
  pose proof (lstrip_length (c :: t)) as L.
  destruct (lstrip (c :: t)) as [|x r] eqn:El.
  - rewrite IH by (simpl in H; lia).
    cbn [pipe_from]. simpl in El.
    destruct (c =? 124) eqn:E.
    + now rewrite (pipe_not_space _ E) in El.
    + destruct (py_isspace c); [|discriminate].
      unfold next_is_pipe. now rewrite El.
  - destruct (x =? 124) eqn:Ex.
    + pose proof (lstrip_length r) as Lr. simpl in L, H.
      replace (List.length (lstrip r) <? List.length (c :: t))%nat with true
        by (symmetry; apply Nat.ltb_lt; simpl; lia).
      rewrite IH by lia.
      rewrite (pipe_leading false _ El Ex), pipe_skip. reflexivity.
    + rewrite IH by (simpl in H; lia).
      cbn [pipe_from]. simpl in El.
      destruct (c =? 124) eqn:E.
      * rewrite (pipe_not_space _ E) in El. injection El as -> _. congruence.
      * destruct (py_isspace c); [|reflexivity].
        unfold next_is_pipe. now rewrite El, Ex.
Qed.

Lemma sub_lower_upper fuel prev s :
  (List.length s < fuel)%nat ->
  sub_from fuel re_lower_upper [TRef 1; space; TRef 2] prev s = split_case s.
Proof.
  revert prev s. induction fuel as [|fuel IH]; intros prev s H; [lia|].
  rewrite sub_from_S, match_lower_upper.
  destruct s as [|a [|b t]]; [reflexivity| |].
  - destruct fuel; reflexivity.
  - simpl in H. cbn [split_case].
    destruct (ascii_lower a && ascii_upper b).
    + replace (List.length t <? List.length (a :: b :: t))%nat with true
        by (symmetry; apply Nat.ltb_lt; simpl; lia).
      rewrite IH by lia. reflexivity.
    + rewrite IH by (simpl; lia). reflexivity.
Qed.

Lemma replace_newlines_map (s : str) :
  replace_newlines s = map newline_to_space s.
Proof.
  unfold replace_newlines, py_replace.
  induction s as [|c t IH]; [reflexivity|].
  cbn [replace_aux prefix map]. unfold newline_to_space at 1.
  rewrite (N.eqb_sym 10 c), andb_true_r.
  destruct (c =? 10); simpl; now rewrite <- IH.
Qed.

(** The rewriting steps keep a plain string plain. *)
Lemma plain_newlines (s : str) :
  plain s = true -> plain (map newline_to_space s) = true.
Proof.
  unfold plain. induction s as [|c t IH]; simpl; [auto|].
  rewrite !andb_true_iff. intros [H1 H2]. split; [|auto].
  unfold newline_to_space. now destruct (c =? 10).
Qed.

Lemma plain_collapse (b : bool) (s : str) :
  plain s = true -> plain (collapse_from b s) = true.
Proof.
  unfold plain. revert b. induction s as [|c t IH]; intros b; simpl; [auto|].
  rewrite andb_true_iff. intros [H1 H2].
  destruct (py_isspace c); [destruct b|]; simpl; rewrite ?H1; simpl; auto.
Qed.

Lemma plain_drop (s : str) :
  plain s = true -> plain (drop_before_punct s) = true.
Proof.
  unfold plain. induction s as [|c t IH]; simpl; [auto|].
  rewrite andb_true_iff. intros [H1 H2].
  destruct (py_isspace c && next_is_punct t); simpl; rewrite ?H1; auto.
Qed.

Lemma plain_pipe (sk : bool) (s : str) :
  plain s = true -> plain (pipe_from sk s) = true.
Proof.
  unfold plain. revert sk. induction s as [|c t IH]; intros sk; simpl; [auto|].
  rewrite andb_true_iff. intros [H1 H2].
  destruct (c =? 124); [simpl; auto|].
  destruct (py_isspace c); [destruct (sk || next_is_pipe t)|];
    simpl; rewrite ?H1; simpl; auto.
Qed.

Lemma plain_split (s : str) :
  plain s = true -> plain (split_case s) = true.
Proof.
  assert (G : forall n s, (List.length s <= n)%nat -> plain s = true ->
                          plain (split_case s) = true).
  { unfold plain. induction n as [|n IH]; intros [|a [|b t]] L; simpl; auto;
      simpl in L; try lia.
    rewrite !andb_true_iff. intros [H1 [H2 H3]].
    destruct (ascii_lower a && ascii_upper b); simpl.
    - rewrite H1, H2. simpl. apply IH; [lia | exact H3].
    - rewrite H1. simpl.
      apply (IH (b :: t)); [simpl; lia|]. simpl. now rewrite H2. }
  apply (G (List.length s)). lia.
Qed.

Lemma lstrip_suffix (s : str) : exists w, s = w ++ lstrip s.
Proof.
  induction s as [|c t [w IH]]; [now exists []|].
  simpl. destruct (py_isspace c).
  - exists (c :: w). simpl. now f_equal.
  - now exists [].
Qed.

Lemma rstrip_prefix (s : str) : exists w, s = rstrip s ++ w.
Proof.
  unfold rstrip. destruct (lstrip_suffix (rev s)) as [w E].
  exists (rev w). rewrite <- rev_app_distr, <- E. now rewrite rev_involutive.
Qed.

Lemma plain_strip (s : str) : plain s = true -> plain (py_strip s) = true.
Proof.
  unfold py_strip, plain. intros H.
  destruct (lstrip_suffix s) as [w1 E1].
  destruct (rstrip_prefix (lstrip s)) as [w2 E2].
  rewrite E1, forallb_app in H. apply andb_true_iff in H as [_ H].
  rewrite E2, forallb_app in H. now apply andb_true_iff in H as [H _].
Qed.

(** On a plain string the normalizer is six scans. *)
Lemma normalize_plain (s : str) :
  plain s = true ->
  normalize s =
  py_strip (collapse_from false (split_case (pipe_from false
    (drop_before_punct (collapse_from false (map newline_to_space s)))))).
Proof.
  intros H. unfold normalize. cbv zeta. unfold re_sub.
  rewrite replace_newlines_map.
  set (s1 := map newline_to_space s).
  rewrite (@sub_spaces _ None s1) by lia.
  set (s2 := collapse_from false s1).
  rewrite (@sub_space_punct _ None s2) by lia.
  set (s3 := drop_before_punct s2).
  rewrite (@sub_pipe _ None s3) by lia.
  set (s4 := pipe_from false s3).
  assert (H1 : plain s4 = true)
    by (apply plain_pipe, plain_drop, plain_collapse, plain_newlines, H).
  rewrite (@sub_from_plain _ re_tilde _ None s4
             (fun p s' => @match_tilde_plain p s') H1).
  rewrite (@sub_lower_upper _ None s4) by lia.
  set (s5 := split_case s4).
  assert (H2 : plain s5 = true) by (apply plain_split, H1).
  rewrite (@sub_from_plain _ re_ligature _ None s5
             (fun p s' => @match_ligature_plain p s') H2).
  rewrite (@sub_from_plain _ re_hyphen_break _ None s5
             (fun p s' => @match_hyphen_plain p s') H2).
  rewrite (@sub_spaces _ None s5) by lia. reflexivity.
Qed.

Unset Implicit Arguments.

(* ================================================================== *)
(** * The scans on words with gaps *)
(* ================================================================== *)

Lemma lstrip_spaces (k : nat) : lstrip (spaces k) = [].
Proof. induction k; simpl; auto. Qed.

Lemma lstrip_spaces_app (g : nat) (c : char) (x : str) :
  py_isspace c = false -> lstrip (spaces g ++ c :: x) = c :: x.
Proof.
  intros H. induction g as [|g IH]; simpl; [now rewrite H | exact IH].
Qed.

Lemma solid_cons (g : nat) (c : char) (rest : list token) :
  solid ((g, c) :: rest) = true ->
  py_isspace c = false /\ solid rest = true.
Proof.
  unfold solid. simpl. rewrite andb_true_iff, negb_true_iff. tauto.
Qed.

(** Every string whose only whitespace is the space is made of
    tokens. *)
Lemma tokenize (x : str) :
  space_only x = true ->
  exists toks trailing, solid toks = true /\ x = decode toks trailing.
Proof.
  unfold space_only. induction x as [|c t IH]; [now exists [], O|].
  simpl. rewrite andb_true_iff. intros [H1 H2].
  destruct (IH H2) as [toks [tr [Hs ->]]].
  destruct (py_isspace c) eqn:E.
  - simpl in H1. apply N.eqb_eq in H1. subst c.
    destruct toks as [|[g d] rest].
    + now exists [], (S tr).
    + exists ((S g, d) :: rest), tr. split; [exact Hs | reflexivity].
  - exists ((O, c) :: toks), tr. split; [|reflexivity].
    unfold solid in *. simpl. now rewrite E.
Qed.

Lemma space_only_spaces (k : nat) (x : str) :
  space_only (spaces k ++ x) = space_only x.
Proof. induction k; simpl; auto. Qed.

Lemma space_only_decode (toks : list token) (trailing : nat) :
  solid toks = true -> space_only (decode toks trailing) = true.
Proof.
  induction toks as [|[g c] rest IH]; intros H.
  - simpl. rewrite <- (app_nil_r (spaces trailing)).
    now rewrite space_only_spaces.
  - apply solid_cons in H as [Hc Hr]. simpl decode.
    rewrite space_only_spaces. unfold space_only in *. simpl.
    now rewrite Hc, (IH Hr).
Qed.

(** ** The whitespace collapse *)

Lemma collapse_spaces_true (g : nat) (x : str) :
  collapse_from true (spaces g ++ x) = collapse_from true x.
Proof. induction g; simpl; auto. Qed.

Lemma collapse_spaces (g : nat) (x : str) :
  collapse_from false (spaces g ++ x) =
  spaces (Nat.min g 1) ++ collapse_from (0 <? g)%nat x.
Proof.
  destruct g as [|g]; [reflexivity|].
  change (spaces (S g)) with (32 :: spaces g). cbn [app collapse_from].
  change (py_isspace 32) with true. cbv iota.
  rewrite collapse_spaces_true. now destruct g.
Qed.

Lemma collapse_solid (b : bool) (c : char) (x : str) :
  py_isspace c = false ->
  collapse_from b (c :: x) = c :: collapse_from false x.
Proof. intros H. simpl. now rewrite H. Qed.

Lemma collapse_decode (toks : list token) (trailing : nat) :
  solid toks = true ->
  collapse_from false (decode toks trailing) =
  decode (collapse_toks toks) (Nat.min trailing 1).
Proof.
  induction toks as [|[g c] rest IH]; intros H.
  - simpl decode. rewrite <- (app_nil_r (spaces trailing)), collapse_spaces.
    simpl. now rewrite app_nil_r.
  - apply solid_cons in H as [Hc Hr]. simpl decode.
    rewrite collapse_spaces, (collapse_solid _ _ _ Hc), (IH Hr). reflexivity.
Qed.

(** ** The removal of whitespace before punctuation *)

Lemma next_is_punct_spaces (g : nat) (c : char) (x : str) :
  py_isspace c = false -> next_is_punct (spaces g ++ c :: x) = punct c.
Proof. intros H. unfold next_is_punct. now rewrite lstrip_spaces_app. Qed.

Lemma drop_spaces (g : nat) (c : char) (x : str) :
  py_isspace c = false ->
  drop_before_punct (spaces g ++ c :: x) =
  (if punct c then [] else spaces g) ++ c :: drop_before_punct x.
Proof.
  intros H. induction g as [|g IH].
  - simpl. rewrite H. simpl. now destruct (punct c).
  - change (spaces (S g)) with (32 :: spaces g).
    cbn [app drop_before_punct]. change (py_isspace 32) with true.
    rewrite (next_is_punct_spaces _ _ _ H), IH. cbn [andb].
    now destruct (punct c).
Qed.

Lemma drop_only_spaces (k : nat) : drop_before_punct (spaces k) = spaces k.
Proof.
  induction k as [|k IH]; [reflexivity|].
  change (spaces (S k)) with (32 :: spaces k). cbn [drop_before_punct].
  unfold next_is_punct. rewrite lstrip_spaces, andb_false_r. now rewrite IH.
Qed.

Lemma drop_decode (toks : list token) (trailing : nat) :
  solid toks = true ->
  drop_before_punct (decode toks trailing) = decode (drop_toks toks) trailing.
Proof.
  induction toks as [|[g c] rest IH]; intros H.
  - apply drop_only_spaces.
  - apply solid_cons in H as [Hc Hr]. simpl decode.
    rewrite (drop_spaces _ _ _ Hc), (IH Hr). simpl. now destruct (punct c).
Qed.

(** ** The pipe spacing *)

Lemma pipe_only_spaces (sk : bool) (k : nat) :
  pipe_from sk (spaces k) = if sk then [] else spaces k.
Proof.
  induction k as [|k IH]; [now destruct sk|].
  change (spaces (S k)) with (32 :: spaces k). cbn [pipe_from].
  change (32 =? 124) with false. change (py_isspace 32) with true. cbv iota.
  unfold next_is_pipe. rewrite lstrip_spaces, orb_false_r.
  destruct sk; [exact IH|]. simpl in IH. now rewrite IH.
Qed.

Lemma pipe_spaces (g : nat) (c : char) (x : str) :
  py_isspace c = false -> (c =? 124) = false ->
  pipe_from false (spaces g ++ c :: x) = spaces g ++ c :: pipe_from false x.
Proof.
  intros Hc Hp. induction g as [|g IH].
  - simpl. now rewrite Hp, Hc.
  - change (spaces (S g)) with (32 :: spaces g). cbn [app pipe_from].
    change (32 =? 124) with false. change (py_isspace 32) with true. cbv iota.
    unfold next_is_pipe. rewrite (lstrip_spaces_app _ _ _ Hc), Hp.
    cbn [orb]. now rewrite IH.
Qed.

Lemma pipe_decode (after_pipe : bool) (toks : list token) (trailing : nat) :
  solid toks = true ->
  (if after_pipe then [32] else []) ++ pipe_from after_pipe (decode toks trailing)
  = decode (pipe_toks after_pipe toks)
           (if ends_with_pipe after_pipe toks then 1%nat else trailing).
Proof.
  revert after_pipe. induction toks as [|[g c] rest IH]; intros ap H.
  - simpl decode. rewrite pipe_only_spaces. now destruct ap.
  - apply solid_cons in H as [Hc Hr].
    cbn [decode pipe_toks ends_with_pipe].
    destruct (c =? 124) eqn:Ep.
    + rewrite (@pipe_leading ap _ _ _ (lstrip_spaces_app g _ _ Hc) Ep).
      specialize (IH true Hr). cbn [app] in IH.
      apply N.eqb_eq in Ep. subst c.
      change (32 :: 124 :: 32 :: pipe_from true (decode rest trailing))
        with ([32; 124] ++ 32 :: pipe_from true (decode rest trailing)).
      rewrite IH. now destruct ap.
    + destruct ap.
      * rewrite pipe_skip, (lstrip_spaces_app _ _ _ Hc).
        cbn [pipe_from]. rewrite Ep, Hc.
        specialize (IH false Hr). cbn [app] in IH. rewrite IH. reflexivity.
      * rewrite (pipe_spaces _ _ _ Hc Ep).
        specialize (IH false Hr). cbn [app] in IH. rewrite IH. reflexivity.
Qed.

(** ** The split at a case boundary *)

Lemma split_not_lower (a : char) (x : str) :
  ascii_lower a = false -> split_case (a :: x) = a :: split_case x.
Proof. intros H. destruct x; simpl; [reflexivity | now rewrite H]. Qed.

Lemma split_case_two a b t :
  split_case (a :: b :: t) =
  if ascii_lower a && ascii_upper b
  then a :: 32 :: b :: split_case t
  else a :: split_case (b :: t).
Proof. reflexivity. Qed.

Lemma split_spaces (g : nat) (x : str) :
  split_case (spaces g ++ x) = spaces g ++ split_case x.
Proof.
  induction g as [|g IH]; [reflexivity|].
  change (spaces (S g)) with (32 :: spaces g). cbn [app].
  rewrite split_not_lower by reflexivity. now rewrite IH.
Qed.

Lemma upper_not_lower b : ascii_upper b = true -> ascii_lower b = false.
Proof.
  unfold ascii_upper, ascii_lower, in_range.
  rewrite andb_true_iff, !N.leb_le. intros [H1 H2].
  apply andb_false_iff. left. apply N.leb_gt. lia.
Qed.

Lemma split_after (a : char) (toks : list token) (trailing : nat) :
  split_case (a :: decode toks trailing) =
  a :: decode (split_toks (Some a) toks) trailing.
Proof.
  revert a. induction toks as [|[g c] rest IH]; intros a.
  - simpl decode. destruct trailing as [|k]; [reflexivity|].
    change (spaces (S k)) with (32 :: spaces k).
    rewrite split_case_two. change (ascii_upper 32) with false.
    rewrite andb_false_r. f_equal.
    rewrite <- (app_nil_r (spaces k)). change (32 :: spaces k ++ [])
      with (spaces (S k) ++ []). rewrite split_spaces. reflexivity.
  - cbn [decode split_toks is_lower]. destruct g as [|g].
    + cbn [spaces repeat app Nat.eqb andb]. rewrite split_case_two.
      destruct (ascii_lower a && ascii_upper c) eqn:E.
      * apply andb_true_iff in E as [_ E].
        specialize (IH c). rewrite (split_not_lower _ _ (upper_not_lower _ E)) in IH.
        injection IH as IH. rewrite IH. reflexivity.
      * now rewrite IH.
    + change (spaces (S g)) with (32 :: spaces g). cbn [app Nat.eqb andb].
      rewrite split_case_two. change (ascii_upper 32) with false.
      rewrite andb_false_r. f_equal.
      change (32 :: spaces g ++ c :: decode rest trailing)
        with (spaces (S g) ++ c :: decode rest trailing).
      now rewrite split_spaces, IH.
Qed.

Lemma split_decode (toks : list token) (trailing : nat) :
  split_case (decode toks trailing) = decode (split_toks None toks) trailing.
Proof.
  destruct toks as [|[g c] rest].
  - simpl decode. rewrite <- (app_nil_r (spaces trailing)), split_spaces.
    reflexivity.
  - cbn [decode split_toks is_lower]. rewrite andb_false_r. cbn [andb].
    now rewrite split_spaces, split_after.
Qed.

(** ** The final trim *)

Lemma rstrip_spaces (k : nat) : rstrip (spaces k) = [].
Proof.
  induction k as [|k IH]; [reflexivity|].
  change (spaces (S k)) with (32 :: spaces k). now rewrite rstrip_cons, IH.
Qed.

Lemma rstrip_app_solid (l : str) (c : char) (x : str) :
  py_isspace c = false ->
  rstrip (l ++ c :: x) = l ++ rstrip (c :: x).
Proof.
  intros H. induction l as [|a l IH]; [reflexivity|].
  cbn [app]. rewrite rstrip_cons, IH.
  rewrite (rstrip_cons c x), H.
  destruct l; cbn [app]; now destruct (rstrip x).
Qed.

Lemma rstrip_decode (toks : list token) (trailing : nat) :
  solid toks = true -> rstrip (decode toks trailing) = decode toks O.
Proof.
  induction toks as [|[g c] rest IH]; intros H.
  - apply rstrip_spaces.
  - apply solid_cons in H as [Hc Hr]. simpl decode.
    rewrite (rstrip_app_solid _ _ _ Hc), rstrip_cons, (IH Hr), Hc.
    now destruct (decode rest 0).
Qed.

Lemma strip_decode (toks : list token) (trailing : nat) :
  solid toks = true ->
  py_strip (decode toks trailing) = decode (strip_toks toks) O.
Proof.
  intros H. unfold py_strip. destruct toks as [|[g c] rest].
  - simpl decode. now rewrite lstrip_spaces.
  - pose proof H as H'. apply solid_cons in H' as [Hc Hr]. simpl decode.
    rewrite (lstrip_spaces_app _ _ _ Hc).
    change (c :: decode rest trailing) with (decode ((O, c) :: rest) trailing).
    apply rstrip_decode. unfold solid in *. simpl. simpl in H. exact H.
Qed.

(** ** The whole normalizer on the gaps *)

Lemma solid_same_chars (t1 t2 : list token) :
  map snd t1 = map snd t2 -> solid t1 = solid t2.
Proof.
  revert t2. induction t1 as [|[g c] t1 IH]; intros [|[g' c'] t2] H;
    try discriminate; [reflexivity|].
  simpl in H. injection H as -> H. unfold solid in *. simpl.
  now rewrite (IH _ H).
Qed.

Lemma drop_toks_chars toks : map snd (drop_toks toks) = map snd toks.
Proof. unfold drop_toks. rewrite map_map. reflexivity. Qed.

Lemma collapse_toks_chars toks : map snd (collapse_toks toks) = map snd toks.
Proof. unfold collapse_toks. rewrite map_map. reflexivity. Qed.

Lemma pipe_toks_chars ap toks : map snd (pipe_toks ap toks) = map snd toks.
Proof.
  revert ap. induction toks as [|[g c] rest IH]; intros ap; [reflexivity|].
  simpl. now rewrite IH.
Qed.

Lemma split_toks_chars prev toks : map snd (split_toks prev toks) = map snd toks.
Proof.
  revert prev. induction toks as [|[g c] rest IH]; intros prev; [reflexivity|].
  simpl. now rewrite IH.
Qed.

Lemma normal_toks_chars first prev toks :
  map snd (normal_toks first prev toks) = map snd toks.
Proof.
  revert first prev.
  induction toks as [|[g c] rest IH]; intros first prev; [reflexivity|].
  simpl. now rewrite IH.
Qed.

Lemma drop_toks_cons g c rest :
  drop_toks ((g, c) :: rest) = (if punct c then O else g, c) :: drop_toks rest.
Proof. reflexivity. Qed.

Lemma collapse_toks_cons g c rest :
  collapse_toks ((g, c) :: rest) = (Nat.min g 1, c) :: collapse_toks rest.
Proof. reflexivity. Qed.

(** What the four scans leave before one character. *)
Lemma scans_gap (prev : option char) (g : nat) (c : char) :
  py_isspace c = false ->
  Nat.min
    (let g2 := if c =? 124 then (if is_pipe prev then 2 else 1)%nat
               else if is_pipe prev then 1%nat
               else if punct c then O else g in
     if Nat.eqb g2 0 && is_lower prev && ascii_upper c then 1%nat else g2) 1
  = normal_gap false prev g c.
Proof.
  intros Hc. unfold normal_gap. cbv zeta.
  destruct (c =? 124) eqn:Ep.
  - apply N.eqb_eq in Ep. subst c.
    rewrite orb_true_r. now destruct (is_pipe prev).
  - rewrite orb_false_r. destruct (is_pipe prev) eqn:Epp; [reflexivity|].
    destruct (punct c) eqn:Epc.
    + rewrite (punct_not_upper _ Epc), andb_false_r. reflexivity.
    + destruct g as [|g]; cbn [Nat.eqb andb].
      * now destruct (is_lower prev && ascii_upper c).
      * now destruct g.
Qed.

(** After the first token the four scans leave [normal_gap]. *)
Lemma scans_are_normal (prev : option char) (toks : list token) :
  solid toks = true ->
  collapse_toks (split_toks prev (pipe_toks (is_pipe prev) (drop_toks toks)))
  = normal_toks false prev toks.
Proof.
  revert prev. induction toks as [|[g c] rest IH]; intros prev H;
    [reflexivity|].
  apply solid_cons in H as [Hc Hr].
  specialize (IH (Some c) Hr). cbn [is_pipe] in IH.
  rewrite drop_toks_cons. cbn [pipe_toks split_toks].
  rewrite collapse_toks_cons, IH. cbn [normal_toks].
  f_equal. f_equal. rewrite <- (scans_gap prev g c Hc). cbv zeta.
  destruct (c =? 124); [reflexivity|].
  destruct (is_pipe prev); reflexivity.
Qed.

Lemma all_scans_are_normal (toks : list token) :
  solid toks = true ->
  strip_toks (collapse_toks (split_toks None
    (pipe_toks false (drop_toks toks))))
  = normal_toks true None toks.
Proof.
  destruct toks as [|[g c] rest]; [reflexivity|]. intros H.
  apply solid_cons in H as [Hc Hr].
  pose proof (scans_are_normal (Some c) rest Hr) as IH. cbn [is_pipe] in IH.
  rewrite drop_toks_cons. cbn [pipe_toks split_toks].
  rewrite collapse_toks_cons, IH. reflexivity.
Qed.

(** The five scans after the first collapse, on a tokenized string. *)
Lemma scans_decode (toks : list token) (trailing : nat) :
  solid toks = true ->
  py_strip (collapse_from false (split_case (pipe_from false
    (drop_before_punct (decode toks trailing)))))
  = decode (normal_toks true None toks) O.
Proof.
  intros H.
  rewrite (drop_decode _ _ H).
  assert (H1 : solid (drop_toks toks) = true)
    by (rewrite (solid_same_chars _ _ (drop_toks_chars toks)); exact H).
  pose proof (pipe_decode false _ trailing H1) as P. cbn [app] in P.
  rewrite P, split_decode.
  set (t3 := split_toks None (pipe_toks false (drop_toks toks))).
  assert (H3 : solid t3 = true).
  { unfold t3.
    rewrite (solid_same_chars _ _ (split_toks_chars None _)).
    rewrite (solid_same_chars _ _ (pipe_toks_chars false _)). exact H1. }
  rewrite (collapse_decode _ _ H3).
  assert (H4 : solid (collapse_toks t3) = true)
    by (rewrite (solid_same_chars _ _ (collapse_toks_chars t3)); exact H3).
  rewrite (strip_decode _ _ H4). unfold t3.
  now rewrite (all_scans_are_normal _ H).
Qed.

(** The gaps of a normalized string are left as they are. *)
Lemma normal_gap_stable first prev g c :
  normal_gap first prev (Nat.min (normal_gap first prev g c) 1) c
  = normal_gap first prev g c.
Proof.
  unfold normal_gap. destruct first; [reflexivity|].
  destruct (is_pipe prev || (c =? 124)); [reflexivity|].
  destruct (punct c); [reflexivity|].
  destruct g as [|g]; cbn [Nat.eqb];
    [destruct (is_lower prev && ascii_upper c)|]; reflexivity.
Qed.

Lemma normal_toks_stable first prev toks :
  normal_toks first prev (collapse_toks (normal_toks first prev toks))
  = normal_toks first prev toks.
Proof.
  revert first prev.
  induction toks as [|[g c] rest IH]; intros first prev; [reflexivity|].
  cbn [normal_toks]. rewrite collapse_toks_cons. cbn [normal_toks].
  now rewrite normal_gap_stable, IH.
Qed.

Lemma collapse_space_only b s : space_only (collapse_from b s) = true.
Proof.
  unfold space_only. revert b.
  induction s as [|c t IH]; intros b; simpl; [reflexivity|].
  destruct (py_isspace c) eqn:E; [destruct b|]; simpl; rewrite ?E; simpl; auto.
Qed.

Lemma newlines_fixed s :
  space_only s = true -> map newline_to_space s = s.
Proof.
  unfold space_only. induction s as [|c t IH]; simpl; [reflexivity|].
  rewrite andb_true_iff. intros [H1 H2]. rewrite (IH H2). f_equal.
  unfold newline_to_space. destruct (N.eqb_spec c 10) as [->|]; [|reflexivity].
  discriminate H1.
Qed.

(** Every normalized plain string is the decoding of normal tokens. *)
Lemma normalize_tokens (s : str) :
  plain s = true ->
  exists toks, solid toks = true
               /\ normalize s = decode (normal_toks true None toks) O.
Proof.
  intros H. rewrite (normalize_plain s H).
  destruct (tokenize _ (collapse_space_only false (map newline_to_space s)))
    as [toks [tr [Hs E]]].
  exists toks. split; [exact Hs|]. rewrite E. now apply scans_decode.
Qed.

Lemma plain_normalize (s : str) : plain s = true -> plain (normalize s) = true.
Proof.
  intros H. rewrite (normalize_plain s H).
  apply plain_strip, plain_collapse, plain_split, plain_pipe, plain_drop,
    plain_collapse, plain_newlines, H.
Qed.

(** C8, as stated, fails: a second pass joins the word that the first
    pass left broken; the tilde and the ligature rules give other
    failures. *)
Lemma normalize_not_idempotent :
  normalize twice_broken = u "ab- c"
  /\ normalize (normalize twice_broken) = u "abc"
  /\ normalize (normalize tilde_before_stop) <> normalize tilde_before_stop
  /\ normalize (normalize ligature_at_boundary)
     <> normalize ligature_at_boundary.
Proof. repeat split; vm_compute; first [reflexivity | discriminate]. Qed.

(** C8, amended: on every string without the characters that the
    tilde, ligature and hyphen rules delete, normalizing twice gives
    the same string as normalizing once. *)
Theorem normalize_idempotent_on_plain (s : str) :
  plain s = true -> normalize (normalize s) = normalize s.
Proof.
  intros H.
  destruct (normalize_tokens s H) as [toks [Hs E]].
  pose proof (plain_normalize s H) as P. rewrite E in P |- *.
  set (T := normal_toks true None toks) in *.
  assert (HT : solid T = true)
    by (unfold T; rewrite (solid_same_chars _ _ (normal_toks_chars _ _ _));
        exact Hs).
  rewrite (normalize_plain _ P).
  rewrite (newlines_fixed _ (space_only_decode T O HT)).
  rewrite (collapse_decode _ _ HT).
  assert (HC : solid (collapse_toks T) = true)
    by (rewrite (solid_same_chars _ _ (collapse_toks_chars T)); exact HT).
  rewrite (scans_decode _ _ HC). unfold T.
  now rewrite normal_toks_stable.
Qed.

Lemma normalize_idempotent_on_plain_witness :
  normalize (normalize plain_sentence) = normalize plain_sentence.
Proof.
  apply normalize_idempotent_on_plain. vm_compute. reflexivity.
Defined.
